(** * Childcare funding calculator: the calculation engine of
      [src/FundingCalculator.jsx], embedded and verified.

    The engine works on JavaScript numbers.  They are modelled by [jsnum]:
    exact rationals for the finite values, together with the three special
    values [Infinity], [-Infinity] and [NaN], which is what the engine's
    divisions produce on a zero divisor.  In [jsnum] a finite result is
    never rounded and never overflows, and there is a single zero, standing
    for [+0]: the only zero divisor the engine can build is [38 - 38].

    The source computes in IEEE 754 binary64.  Module [Binary64] gives that
    arithmetic, bit for bit, and the functions whose results depend on it
    are embedded a second time there.  A property stated on [jsnum] is one
    of three kinds: a relation between the code's own expressions, which
    holds whatever the arithmetic; a monotonicity, which correct rounding
    keeps; or a statement over inputs on which binary64 is exact or is
    checked to agree (whole numbers, the 38 to 52 operating weeks).

    Reading a property of [undefined] throws a [TypeError]; functions that
    can do so return a [result]. *)

From Stdlib Require Import ZArith QArith Qround Qminmax Lqa Lia.
From Stdlib Require Import List Ascii String Bool.
From Stdlib Require SpecFloat.
Import ListNotations.

Local Open Scope Q_scope.

(* ================================================================== *)
(** ** JavaScript numbers *)

Inductive jsnum : Type :=
| Fin (q : Q)
| PInf
| NInf
| NaN.

Declare Scope js_scope.
Delimit Scope js_scope with js.
Bind Scope js_scope with jsnum.

Definition Qltb (a b : Q) : bool := negb (Qle_bool b a).

Module Js.

Definition of_Z (z : Z) : jsnum := Fin (inject_Z z).

Definition neg (a : jsnum) : jsnum :=
  match a with
  | Fin q => Fin (- q)
  | PInf => NInf
  | NInf => PInf
  | NaN => NaN
  end.

(** [a + b], exact on finite values: no rounding and no overflow (see
    [Binary64.add] for the double). *)
Definition add (a b : jsnum) : jsnum :=
  match a, b with
  | NaN, _ | _, NaN => NaN
  | Fin x, Fin y => Fin (x + y)
  | PInf, NInf | NInf, PInf => NaN
  | PInf, _ | _, PInf => PInf
  | NInf, _ | _, NInf => NInf
  end.

(** [a - b] *)
Definition sub (a b : jsnum) : jsnum := add a (neg b).

(** The sign of a product or quotient with an infinite operand. *)
Definition signed_inf (positive : bool) : jsnum :=
  if positive then PInf else NInf.

(** [a * b] *)
Definition mul (a b : jsnum) : jsnum :=
  match a, b with
  | NaN, _ | _, NaN => NaN
  | Fin x, Fin y => Fin (x * y)
  | Fin x, PInf | PInf, Fin x =>
      if Qeq_bool x 0 then NaN else signed_inf (Qltb 0 x)
  | Fin x, NInf | NInf, Fin x =>
      if Qeq_bool x 0 then NaN else signed_inf (Qltb x 0)
  | PInf, PInf | NInf, NInf => PInf
  | PInf, NInf | NInf, PInf => NInf
  end.

(** [a / b], exact on finite values; a zero divisor is [+0] (see
    [Binary64.div] for the double, with its signed zeros and overflow). *)
Definition div (a b : jsnum) : jsnum :=
  match a, b with
  | NaN, _ | _, NaN => NaN
  | Fin x, Fin y =>
      if Qeq_bool y 0
      then (if Qeq_bool x 0 then NaN else signed_inf (Qltb 0 x))
      else Fin (x / y)
  | Fin _, (PInf | NInf) => Fin 0
  | (PInf | NInf), (PInf | NInf) => NaN
  | PInf, Fin y => signed_inf (Qle_bool 0 y)
  | NInf, Fin y => signed_inf (Qltb y 0)
  end.

(** [a < b] *)
Definition lt (a b : jsnum) : bool :=
  match a, b with
  | NaN, _ | _, NaN => false
  | Fin x, Fin y => Qltb x y
  | _, NInf => false
  | NInf, _ => true
  | PInf, _ => false
  | _, PInf => true
  end.

(** [a > b] *)
Definition gt (a b : jsnum) : bool := lt b a.

(** [a <= b] *)
Definition le (a b : jsnum) : bool :=
  match a, b with
  | NaN, _ | _, NaN => false
  | Fin x, Fin y => Qle_bool x y
  | NInf, _ => true
  | _, PInf => true
  | _, NInf => false
  | PInf, _ => false
  end.

(** [a >= b] *)
Definition ge (a b : jsnum) : bool := le b a.

(** [a === b] on numbers *)
Definition strict_eq (a b : jsnum) : bool :=
  match a, b with
  | Fin x, Fin y => Qeq_bool x y
  | PInf, PInf | NInf, NInf => true
  | _, _ => false
  end.

(** [Boolean(a)]: [0] and [NaN] are falsy. *)
Definition truthy (a : jsnum) : bool :=
  match a with
  | Fin x => negb (Qeq_bool x 0)
  | NaN => false
  | PInf | NInf => true
  end.

(** [Math.round]: the nearest integer, a tie going up. *)
Definition round (a : jsnum) : jsnum :=
  match a with
  | Fin x => of_Z (Qfloor (x + (1 # 2)))
  | _ => a
  end.

(** [Math.ceil] *)
Definition ceil (a : jsnum) : jsnum :=
  match a with
  | Fin x => of_Z (Qceiling x)
  | _ => a
  end.

(** [Math.max(a, b)] *)
Definition max (a b : jsnum) : jsnum :=
  match a, b with
  | NaN, _ | _, NaN => NaN
  | _, _ => if lt a b then b else a
  end.

(** [Math.min(a, b)] *)
Definition min (a b : jsnum) : jsnum :=
  match a, b with
  | NaN, _ | _, NaN => NaN
  | _, _ => if lt b a then b else a
  end.

(** Equality of numbers as values: [Qeq] on the finite ones. *)
Definition equiv (a b : jsnum) : Prop :=
  match a, b with
  | Fin x, Fin y => x == y
  | PInf, PInf | NInf, NInf | NaN, NaN => True
  | _, _ => False
  end.

End Js.

Infix "+" := Js.add : js_scope.
Infix "-" := Js.sub : js_scope.
Infix "*" := Js.mul : js_scope.
Infix "/" := Js.div : js_scope.
Infix "<?" := Js.lt : js_scope.
Infix ">?" := Js.gt (at level 70) : js_scope.
Infix ">=?" := Js.ge (at level 70) : js_scope.
Infix "===" := Js.equiv (at level 70, no associativity) : js_scope.

(* ================================================================== *)
(** ** Exceptions *)

Inductive exn : Type := TypeError.

Inductive result (A : Type) : Type :=
| Ok (a : A)
| Throw (e : exn).
Arguments Ok {A} a.
Arguments Throw {A} e.

Definition bind {A B} (m : result A) (k : A -> result B) : result B :=
  match m with
  | Ok a => k a
  | Throw e => Throw e
  end.

Notation "'let*' x ':=' m 'in' k" := (bind m (fun x => k))
  (at level 10, x name, m at level 100, k at level 200).

(* ================================================================== *)
(** ** Funding scheme registry *)

Module FundingScheme.
Record t : Type := mk {
  name : string;
  description : string;
  hoursPerYear : jsnum;
  weeksTermTime : jsnum;
  ageMin : jsnum;
  ageMax : jsnum;
  color : string
}.
End FundingScheme.

Definition universal_15 : FundingScheme.t :=
  FundingScheme.mk "15 Hours Universal" "All 3-4 year olds"
    (Fin 570) (Fin 38) (Fin 3) (Fin 4) "#3B82F6".

Definition eligible_2yr : FundingScheme.t :=
  FundingScheme.mk "15 Hours (Eligible 2yr)" "Eligible 2 year olds"
    (Fin 570) (Fin 38) (Fin 2) (Fin 2) "#8B5CF6".

Definition extended_30 : FundingScheme.t :=
  FundingScheme.mk "30 Hours Extended" "Working parents 3-4yr olds"
    (Fin 1140) (Fin 38) (Fin 3) (Fin 4) "#10B981".

Definition expanded_under2 : FundingScheme.t :=
  FundingScheme.mk "15 Hours Expanded" "Working parents 9mo-2yr"
    (Fin 570) (Fin 38) (Fin (3 # 4)) (Fin 2) "#F59E0B".

(** The object literal [FUNDING_SCHEMES], own properties in source order. *)
Definition FUNDING_SCHEMES : list (string * FundingScheme.t) :=
  [ ("universal_15"%string, universal_15);
    ("eligible_2yr"%string, eligible_2yr);
    ("extended_30"%string, extended_30);
    ("expanded_under2"%string, expanded_under2) ].

(** Names that every object literal inherits from [Object.prototype]. *)
Definition object_prototype_keys : list string :=
  [ "constructor"; "hasOwnProperty"; "isPrototypeOf"; "propertyIsEnumerable";
    "toLocaleString"; "toString"; "valueOf"; "__proto__";
    "__defineGetter__"; "__defineSetter__";
    "__lookupGetter__"; "__lookupSetter__" ]%string.

Fixpoint own_property {A} (k : string) (o : list (string * A)) : option A :=
  match o with
  | [] => None
  | (k', v) :: o' => if String.eqb k k' then Some v else own_property k o'
  end.

(** What [FUNDING_SCHEMES[key]] evaluates to. *)
Inductive scheme_ref : Type :=
| Own (s : FundingScheme.t)  (* a catalogued scheme *)
| Inherited                  (* a member of [Object.prototype] *)
| Undefined.                 (* [undefined] *)

Definition lookup_scheme (key : string) : scheme_ref :=
  match own_property key FUNDING_SCHEMES with
  | Some s => Own s
  | None =>
      if existsb (String.eqb key) object_prototype_keys
      then Inherited else Undefined
  end.

(** [funding.hoursPerYear] in a numeric context: a missing property reads
    as [undefined], which arithmetic turns into [NaN]; reading it off
    [undefined] throws. *)
Definition get_hoursPerYear (r : scheme_ref) : result jsnum :=
  match r with
  | Own s => Ok (FundingScheme.hoursPerYear s)
  | Inherited => Ok NaN
  | Undefined => Throw TypeError
  end.

Definition get_weeksTermTime (r : scheme_ref) : result jsnum :=
  match r with
  | Own s => Ok (FundingScheme.weeksTermTime s)
  | Inherited => Ok NaN
  | Undefined => Throw TypeError
  end.

Definition is_catalogued (key : string) : Prop :=
  In key (map fst FUNDING_SCHEMES).

(* ================================================================== *)
(** ** Helper functions *)

(** [Object.values(pattern).reduce((sum, hours) => sum + hours, 0)] *)
Definition getWeeklyHours (pattern : list (string * jsnum)) : jsnum :=
  fold_left (fun sum hours => (sum + hours)%js) (map snd pattern) (Fin 0).

(** [Math.round(x * 100) / 100] *)
Definition round_to_cents (x : jsnum) : jsnum :=
  (Js.round (x * Fin 100) / Fin 100)%js.

(** Every call site passes [providerSettings.operatingWeeks], so the
    parameter's default value is never used. *)
Definition calculateFundedWeeklyHours
    (scheme : string) (stretched : bool) (operatingWeeks : jsnum)
  : result jsnum :=
  let funding := lookup_scheme scheme in
  if stretched then
    let* hpy := get_hoursPerYear funding in
    Ok (round_to_cents (hpy / operatingWeeks)%js)
  else
    let* hpy := get_hoursPerYear funding in
    let* wtt := get_weeksTermTime funding in
    Ok (round_to_cents (hpy / wtt)%js).

(** 2025-01-06T00:00:00Z in milliseconds since the epoch. *)
Definition termStart : Z := 1736121600000.

(** [getCurrentTermWeek()], with the clock reading [new Date()] passed in. *)
Definition getCurrentTermWeek (today : Z) : Z :=
  let weeksDiff := ((today - termStart) / (7 * 24 * 60 * 60 * 1000))%Z in
  Z.max 1 (Z.min (weeksDiff + 1) 38).

(* ================================================================== *)
(** ** Application state *)

Module Child.
Record t : Type := mk {
  id : jsnum;
  name : string;
  dob : string;
  entitlement : string;
  weeklyPattern : list (string * jsnum);
  hoursUsed : jsnum;
  stretchedOption : bool
}.

(** [{ ...c, hoursUsed: h }] *)
Definition with_hoursUsed (c : t) (h : jsnum) : t :=
  mk (id c) (name c) (dob c) (entitlement c) (weeklyPattern c) h
     (stretchedOption c).
End Child.

Definition week (mon tue wed thu fri : Q) : list (string * jsnum) :=
  [ ("mon", Fin mon); ("tue", Fin tue); ("wed", Fin wed);
    ("thu", Fin thu); ("fri", Fin fri) ]%string.

Definition SAMPLE_CHILDREN : list Child.t :=
  [ Child.mk (Fin 1) "Emma Thompson" "2022-03-15" "extended_30"
      (week 6 6 6 6 6) (Fin 456) false;
    Child.mk (Fin 2) "Oliver Smith" "2023-06-20" "eligible_2yr"
      (week 5 5 5 0 0) (Fin 180) true;
    Child.mk (Fin 3) "Sophia Williams" "2024-01-10" "expanded_under2"
      (week 4 4 4 4 0) (Fin 96) false ].

Module ProviderSettings.
Record t : Type := mk {
  hourlyRate : jsnum;
  operatingWeeks : jsnum;
  mealCharge : jsnum;
  consumablesCharge : jsnum
}.
End ProviderSettings.

(** The initial [providerSettings] state. *)
Definition default_settings : ProviderSettings.t :=
  ProviderSettings.mk (Fin (15 # 2)) (Fin 51) (Fin (7 # 2)) (Fin (3 # 2)).

Module Quotation.
(** [childId] is [null] ([None]) or a number. *)
Record t : Type := mk {
  childId : option jsnum;
  weeksToQuote : jsnum;
  includeMeals : bool;
  mealsPerWeek : jsnum;
  includeConsumables : bool
}.
End Quotation.

(* ================================================================== *)
(** ** Summary statistics *)

Module Summary.
Record t : Type := mk {
  totalChildren : nat;
  totalFundedHours : jsnum;
  totalUsedHours : jsnum;
  totalRemainingHours : jsnum;
  averageUtilisation : jsnum
}.
End Summary.

(** [xs.forEach(x => ...)] whose body updates the enclosing variables [s]
    and may throw. *)
Fixpoint forEach {S A} (body : S -> A -> result S) (xs : list A) (s : S)
  : result S :=
  match xs with
  | [] => Ok s
  | x :: xs' => let* s' := body s x in forEach body xs' s'
  end.

(** The three accumulators of [summary], in declaration order. *)
Definition totals : Type := (jsnum * jsnum * jsnum)%type.

Definition summary_step (acc : totals) (child : Child.t) : result totals :=
  let '(totalFundedHours, totalUsedHours, totalRemainingHours) := acc in
  let scheme := lookup_scheme (Child.entitlement child) in
  let* hpy := get_hoursPerYear scheme in
  Ok ((totalFundedHours + hpy)%js,
      (totalUsedHours + Child.hoursUsed child)%js,
      (totalRemainingHours + (hpy - Child.hoursUsed child))%js).

Definition summary (children : list Child.t) : result Summary.t :=
  let* acc := forEach summary_step children (Fin 0, Fin 0, Fin 0) in
  let '(totalFundedHours, totalUsedHours, totalRemainingHours) := acc in
  Ok (Summary.mk
        (List.length children)
        totalFundedHours
        totalUsedHours
        totalRemainingHours
        (if (totalFundedHours >? Fin 0)%js
         then Js.round ((totalUsedHours / totalFundedHours) * Fin 100)%js
         else Fin 0)).

(* ================================================================== *)
(** ** Optimisation suggestions *)

(** A template literal: fixed text and interpolated values. *)
Inductive piece : Type :=
| Lit (s : string)      (* literal text *)
| Str (s : string)      (* [${s}] for a string *)
| Num (x : jsnum)       (* [${x}] for a number *)
| Fixed1 (x : jsnum).   (* [${x.toFixed(1)}] *)

Module Suggestion.
Record t : Type := mk {
  type : string;
  child : string;
  title : string;
  message : list piece;
  recommendation : list piece
}.
End Suggestion.

Section PerChild.
Variable weeksRemaining : jsnum.
Variable providerSettings : ProviderSettings.t.
Variable child : Child.t.

Definition weeklyBooked : jsnum := getWeeklyHours (Child.weeklyPattern child).

Definition projectedUsage : jsnum :=
  (Child.hoursUsed child + weeklyBooked * weeksRemaining)%js.

Definition underUtilisation (hpy : jsnum) : Suggestion.t :=
  let shortfall := (hpy - projectedUsage)%js in
  Suggestion.mk "warning" (Child.name child) "Under-utilisation projected"
    [ Str (Child.name child); Lit " is on track to use only ";
      Num (Js.round projectedUsage); Lit " of "; Num hpy;
      Lit " funded hours ("; Num (Js.round shortfall);
      Lit " hours unused)." ]
    [ Lit "Consider increasing weekly hours by ";
      Num (Js.ceil (shortfall / weeksRemaining)%js);
      Lit " hours to maximise funding." ].

Definition overBooking (fundedWeekly : jsnum) : Suggestion.t :=
  Suggestion.mk "info" (Child.name child) "Additional hours being used"
    [ Str (Child.name child); Lit " is booked for "; Num weeklyBooked;
      Lit "hrs/week but only "; Fixed1 fundedWeekly;
      Lit "hrs/week are funded." ]
    [ Lit "Parent will be charged for ";
      Fixed1 (weeklyBooked - fundedWeekly)%js;
      Lit " additional hours per week." ].

Definition stretching (stretchedWeekly : jsnum) : Suggestion.t :=
  Suggestion.mk "success" (Child.name child) "Stretching recommended"
    [ Lit "Switching "; Str (Child.name child);
      Lit " to stretched funding would provide "; Fixed1 stretchedWeekly;
      Lit "hrs/week over ";
      Num (ProviderSettings.operatingWeeks providerSettings);
      Lit " weeks." ]
    [ Lit "This could reduce parent charges while maintaining the same booking pattern." ].

(** The body of [children.forEach] in [optimisations]; [push] appends. *)
Definition optimisations_step (suggestions : list Suggestion.t)
  : result (list Suggestion.t) :=
  let scheme := lookup_scheme (Child.entitlement child) in
  let* fundedWeekly :=
    calculateFundedWeeklyHours (Child.entitlement child)
      (Child.stretchedOption child)
      (ProviderSettings.operatingWeeks providerSettings) in
  let* hpy := get_hoursPerYear scheme in
  let suggestions :=
    if (projectedUsage <? hpy * Fin (85 # 100))%js
    then suggestions ++ [underUtilisation hpy]
    else suggestions in
  let suggestions :=
    if (weeklyBooked >? fundedWeekly + Fin 2)%js
    then suggestions ++ [overBooking fundedWeekly]
    else suggestions in
  if negb (Child.stretchedOption child) && (weeklyBooked >? fundedWeekly)%js
  then
    let* stretchedWeekly :=
      calculateFundedWeeklyHours (Child.entitlement child) true
        (ProviderSettings.operatingWeeks providerSettings) in
    if (stretchedWeekly >=? weeklyBooked * Fin (9 # 10))%js
    then Ok (suggestions ++ [stretching stretchedWeekly])
    else Ok suggestions
  else Ok suggestions.
End PerChild.

(** [optimisations], with the clock reading passed in. *)
Definition optimisations (today : Z) (children : list Child.t)
    (providerSettings : ProviderSettings.t) : result (list Suggestion.t) :=
  let currentWeek := getCurrentTermWeek today in
  let weeksRemaining := Js.of_Z (38 - currentWeek) in
  forEach (fun suggestions child =>
             optimisations_step weeksRemaining providerSettings child
               suggestions)
          children [].

(** The numbers interpolated into a suggestion's texts. *)
Definition figures_of (ps : list piece) : list jsnum :=
  flat_map (fun p => match p with
                     | Num x | Fixed1 x => [x]
                     | Lit _ | Str _ => []
                     end) ps.

Definition figures (s : Suggestion.t) : list jsnum :=
  figures_of (Suggestion.message s) ++ figures_of (Suggestion.recommendation s).

(* ================================================================== *)
(** ** Roster update and quotation *)

Definition updateChildHours (id hours : jsnum) (children : list Child.t)
  : list Child.t :=
  map (fun c =>
         if Js.strict_eq (Child.id c) id
         then Child.with_hoursUsed c (Js.max (Fin 0) hours)
         else c)
      children.

Module Quote.
Record t : Type := mk {
  child : Child.t;
  weeklyBooked : jsnum;
  fundedWeekly : jsnum;
  chargeableHours : jsnum;
  weeklySessionCost : jsnum;
  weeklyFundedValue : jsnum;
  weeklyChargeableHours : jsnum;
  weeklyMeals : jsnum;
  weeklyConsumables : jsnum;
  weeklyTotal : jsnum;
  periodTotal : jsnum;
  weeks : jsnum
}.
End Quote.

(** [generateQuotation]; [None] is the [null] result. *)
Definition generateQuotation (children : list Child.t)
    (providerSettings : ProviderSettings.t) (quotation : Quotation.t)
  : result (option Quote.t) :=
  match Quotation.childId quotation with
  | None => Ok None
  | Some childId =>
    if negb (Js.truthy childId) then Ok None else
    match find (fun c => Js.strict_eq (Child.id c) childId) children with
    | None => Ok None
    | Some child =>
      let weeklyBooked := getWeeklyHours (Child.weeklyPattern child) in
      let* fundedWeekly :=
        calculateFundedWeeklyHours (Child.entitlement child)
          (Child.stretchedOption child)
          (ProviderSettings.operatingWeeks providerSettings) in
      let chargeableHours := Js.max (Fin 0) (weeklyBooked - fundedWeekly)%js in
      let hourlyRate := ProviderSettings.hourlyRate providerSettings in
      let weeklySessionCost := (weeklyBooked * hourlyRate)%js in
      let weeklyFundedValue :=
        (Js.min weeklyBooked fundedWeekly * hourlyRate)%js in
      let weeklyChargeableHours := (chargeableHours * hourlyRate)%js in
      let weeklyMeals :=
        if Quotation.includeMeals quotation
        then (Quotation.mealsPerWeek quotation
              * ProviderSettings.mealCharge providerSettings)%js
        else Fin 0 in
      let weeklyConsumables :=
        if Quotation.includeConsumables quotation
        then (ProviderSettings.consumablesCharge providerSettings * Fin 5)%js
        else Fin 0 in
      let weeklyTotal :=
        (weeklyChargeableHours + weeklyMeals + weeklyConsumables)%js in
      let periodTotal := (weeklyTotal * Quotation.weeksToQuote quotation)%js in
      Ok (Some (Quote.mk child weeklyBooked fundedWeekly chargeableHours
                  weeklySessionCost weeklyFundedValue weeklyChargeableHours
                  weeklyMeals weeklyConsumables weeklyTotal periodTotal
                  (Quotation.weeksToQuote quotation)))
    end
  end.

(* ================================================================== *)
(** ** Ages *)

(** What the getters of a valid [Date] return in local time:
    [getFullYear()], [getMonth()] (0 to 11) and [getDate()] (1 to 31).
    Parsing the date string and the time zone stay outside the model. *)
Module LocalDate.
Record t : Type := mk {
  getFullYear : Z;
  getMonth : Z;
  getDate : Z
}.
End LocalDate.

(** [calculateAge(dob)], with [new Date()] and [new Date(dob)] passed in. *)
Definition calculateAge (today birthDate : LocalDate.t) : Z :=
  let age :=
    (LocalDate.getFullYear today - LocalDate.getFullYear birthDate)%Z in
  let monthDiff :=
    (LocalDate.getMonth today - LocalDate.getMonth birthDate)%Z in
  if (monthDiff <? 0)%Z
     || ((monthDiff =? 0)%Z
         && (LocalDate.getDate today <? LocalDate.getDate birthDate)%Z)
  then (age - 1)%Z
  else age.

Definition calculateAgeInMonths (today birthDate : LocalDate.t) : Z :=
  ((LocalDate.getFullYear today - LocalDate.getFullYear birthDate) * 12
   + (LocalDate.getMonth today - LocalDate.getMonth birthDate))%Z.

(** Calendar order of two dates: year, then month, then day. *)
Definition on_or_after (a b : LocalDate.t) : Prop :=
  (LocalDate.getFullYear b < LocalDate.getFullYear a)%Z
  \/ (LocalDate.getFullYear b = LocalDate.getFullYear a
      /\ ((LocalDate.getMonth b < LocalDate.getMonth a)%Z
          \/ (LocalDate.getMonth b = LocalDate.getMonth a
              /\ (LocalDate.getDate b <= LocalDate.getDate a)%Z))).

(** The [n]-th anniversary of a date. *)
Definition anniversary (n : Z) (d : LocalDate.t) : LocalDate.t :=
  LocalDate.mk (LocalDate.getFullYear d + n) (LocalDate.getMonth d)
    (LocalDate.getDate d).

(* ================================================================== *)
(** ** Adding and deleting children *)

(** [children.filter(c => c.id !== id)] *)
Definition handleDeleteChild (id : jsnum) (children : list Child.t)
  : list Child.t :=
  filter (fun c => negb (Js.strict_eq (Child.id c) id)) children.

(** The draft of the add-child form: a child without an id. *)
Module NewChild.
Record t : Type := mk {
  name : string;
  dob : string;
  entitlement : string;
  weeklyPattern : list (string * jsnum);
  hoursUsed : jsnum;
  stretchedOption : bool
}.
End NewChild.

(** The initial draft, to which the form is reset. *)
Definition blank_child : NewChild.t :=
  NewChild.mk EmptyString EmptyString "universal_15" (week 0 0 0 0 0)
    (Fin 0) false.

(** The state [handleAddChild] reads and sets. *)
Module AddChild.
Record state : Type := mk {
  children : list Child.t;
  newChild : NewChild.t;
  showAddChild : bool
}.
End AddChild.

(** [!s] for a string: only the empty string is falsy. *)
Definition string_falsy (s : string) : bool :=
  match s with
  | EmptyString => true
  | String _ _ => false
  end.

(** [{ ...newChild, id }] *)
Definition with_id (draft : NewChild.t) (id : jsnum) : Child.t :=
  Child.mk id (NewChild.name draft) (NewChild.dob draft)
    (NewChild.entitlement draft) (NewChild.weeklyPattern draft)
    (NewChild.hoursUsed draft) (NewChild.stretchedOption draft).

(** [handleAddChild], with the reading of [Date.now()] passed in. *)
Definition handleAddChild (now : Z) (st : AddChild.state) : AddChild.state :=
  let newChild := AddChild.newChild st in
  if string_falsy (NewChild.name newChild)
     || string_falsy (NewChild.dob newChild)
  then st
  else AddChild.mk
         (AddChild.children st ++ [with_id newChild (Js.of_Z now)])
         blank_child
         false.

(* ================================================================== *)
(** ** Chart data and usage bars *)

(** [scheme.hoursPerYear] as a value: [None] is [undefined]. *)
Definition read_hoursPerYear (r : scheme_ref) : result (option jsnum) :=
  match r with
  | Own s => Ok (Some (FundingScheme.hoursPerYear s))
  | Inherited => Ok None
  | Undefined => Throw TypeError
  end.

(** [Number(v)] for a number or [undefined]. *)
Definition to_number (v : option jsnum) : jsnum :=
  match v with
  | Some x => x
  | None => NaN
  end.

(** [s.split(' ')[0]]: the text before the first space. *)
Fixpoint first_segment (s : string) : string :=
  match s with
  | EmptyString => EmptyString
  | String c rest =>
      if Ascii.eqb c " "%char then EmptyString
      else String c (first_segment rest)
  end.

Module ChartRow.
Record t : Type := mk {
  name : string;
  used : jsnum;
  remaining : jsnum;
  total : option jsnum
}.
End ChartRow.

(** [xs.map(f)] for a callback that may throw. *)
Fixpoint map_result {A B} (f : A -> result B) (xs : list A)
  : result (list B) :=
  match xs with
  | [] => Ok []
  | x :: xs' =>
      let* y := f x in
      let* ys := map_result f xs' in
      Ok (y :: ys)
  end.

Definition usageChartData (children : list Child.t)
  : result (list ChartRow.t) :=
  map_result
    (fun child =>
       let scheme := lookup_scheme (Child.entitlement child) in
       let* total := read_hoursPerYear scheme in
       Ok (ChartRow.mk
             (first_segment (Child.name child))
             (Child.hoursUsed child)
             (to_number total - Child.hoursUsed child)%js
             total))
    children.

(** [usagePercent] of the children list:
    [Math.round((child.hoursUsed / scheme.hoursPerYear) * 100)]. *)
Definition usagePercent (child : Child.t) : result jsnum :=
  let scheme := lookup_scheme (Child.entitlement child) in
  let* hpy := get_hoursPerYear scheme in
  Ok (Js.round (Child.hoursUsed child / hpy * Fin 100)%js).

(** The width of the usage bar, in percent:
    [Math.min(100, usagePercent)]. *)
Definition usageBarWidth (usagePercent : jsnum) : jsnum :=
  Js.min (Fin 100) usagePercent.

(** The colour of the usage bar:
    [usagePercent > 90 ? '#EF4444' : usagePercent > 70 ? '#F59E0B' : '#10B981']. *)
Definition usageBarColor (usagePercent : jsnum) : string :=
  if (usagePercent >? Fin 90)%js then "#EF4444"
  else if (usagePercent >? Fin 70)%js then "#F59E0B"
  else "#10B981".

(** A finite number. *)
Definition finite (a : jsnum) : Prop :=
  match a with
  | Fin _ => True
  | _ => False
  end.

(** A finite number that is not negative. *)
Definition finite_nonneg (a : jsnum) : Prop :=
  match a with
  | Fin q => 0 <= q
  | _ => False
  end.

(* ================================================================== *)
(** ** The engine's arithmetic in IEEE 754 binary64 *)


Module Binary64.

Definition prec : Z := 53.
Definition emax : Z := 1024.

(** A double: signed zeros and infinities, one [NaN], finite values
    [(-1)^s * m * 2^e]. *)
Definition num : Type := SpecFloat.spec_float.

(** The double nearest to a whole number. *)
Definition of_Z (z : Z) : num := SpecFloat.binary_normalize prec emax z 0 false.

Definition add : num -> num -> num := SpecFloat.SFadd prec emax.
Definition sub : num -> num -> num := SpecFloat.SFsub prec emax.
Definition mul : num -> num -> num := SpecFloat.SFmul prec emax.
Definition div : num -> num -> num := SpecFloat.SFdiv prec emax.

(** [a < b], [a > b] and [a == b] on doubles. *)
Definition lt : num -> num -> bool := SpecFloat.SFltb.
Definition gt (a b : num) : bool := lt b a.
Definition eqb : num -> num -> bool := SpecFloat.SFeqb.

(** The double nearest to a fraction of two whole numbers, which is how a
    decimal literal or typed-in value such as [0.1] is read. *)
Definition of_fraction (n : Z) (d : positive) : num :=
  div (of_Z n) (of_Z (Zpos d)).

(** The double a [jsnum] stands for. *)
Definition of_jsnum (a : jsnum) : num :=
  match a with
  | Fin q => of_fraction (Qnum q) (Qden q)
  | PInf => SpecFloat.S754_infinity false
  | NInf => SpecFloat.S754_infinity true
  | NaN => SpecFloat.S754_nan
  end.

(** The exact value of a finite double. *)
Definition value (x : num) : option Q :=
  match x with
  | SpecFloat.S754_zero _ => Some 0
  | SpecFloat.S754_finite s m e =>
      Some ((if s then - inject_Z (Zpos m) else inject_Z (Zpos m))
            * Qpower 2 e)
  | SpecFloat.S754_infinity _ | SpecFloat.S754_nan => None
  end.

Definition sign (x : num) : bool :=
  match x with
  | SpecFloat.S754_zero s | SpecFloat.S754_infinity s
  | SpecFloat.S754_finite s _ _ => s
  | SpecFloat.S754_nan => false
  end.

(** [Math.round]: the nearest integer, a tie going up; a zero result keeps
    the argument's sign. *)
Definition round (x : num) : num :=
  match value x with
  | Some q =>
      SpecFloat.binary_normalize prec emax (Qfloor (q + (1 # 2))) 0 (sign x)
  | None => x
  end.

(** [Math.round(x * 100) / 100] *)
Definition round_to_cents (x : num) : num :=
  div (round (mul x (of_Z 100))) (of_Z 100).

(** [funding.hoursPerYear] and [funding.weeksTermTime] as doubles. *)
Definition hoursPerYear_of (r : scheme_ref) : result num :=
  let* h := get_hoursPerYear r in Ok (of_jsnum h).

Definition weeksTermTime_of (r : scheme_ref) : result num :=
  let* w := get_weeksTermTime r in Ok (of_jsnum w).

Definition calculateFundedWeeklyHours
    (scheme : string) (stretched : bool) (operatingWeeks : num)
  : result num :=
  let funding := lookup_scheme scheme in
  if stretched then
    let* hpy := hoursPerYear_of funding in
    Ok (round_to_cents (div hpy operatingWeeks))
  else
    let* hpy := hoursPerYear_of funding in
    let* wtt := weeksTermTime_of funding in
    Ok (round_to_cents (div hpy wtt)).

(** The two fields of a child that [summary] reads. *)
Record child : Type := mk_child {
  entitlement : string;
  hoursUsed : num
}.

Record summary_t : Type := mk_summary {
  totalChildren : nat;
  totalFundedHours : num;
  totalUsedHours : num;
  totalRemainingHours : num;
  averageUtilisation : num
}.

Definition summary_step (acc : num * num * num) (c : child)
  : result (num * num * num) :=
  let '(totalFundedHours, totalUsedHours, totalRemainingHours) := acc in
  let scheme := lookup_scheme (entitlement c) in
  let* hpy := hoursPerYear_of scheme in
  Ok (add totalFundedHours hpy,
      add totalUsedHours (hoursUsed c),
      add totalRemainingHours (sub hpy (hoursUsed c))).

Definition summary (children : list child) : result summary_t :=
  let* acc := forEach summary_step children (of_Z 0, of_Z 0, of_Z 0) in
  let '(totalFundedHours, totalUsedHours, totalRemainingHours) := acc in
  Ok (mk_summary
        (List.length children)
        totalFundedHours
        totalUsedHours
        totalRemainingHours
        (if gt totalFundedHours (of_Z 0)
         then round (mul (div totalUsedHours totalFundedHours) (of_Z 100))
         else of_Z 0)).

End Binary64.


(* ================================================================== *)
(** ** States used in the examples *)

(** The initial [quotation] state with the second sample child selected. *)
Definition sample_quotation : Quotation.t :=
  Quotation.mk (Some (Fin 2)) (Fin 4) true (Fin 5) true.

Definition quotation_for (childId : jsnum) : Quotation.t :=
  Quotation.mk (Some childId) (Fin 4) true (Fin 5) true.

(** A roster whose only child has the id [0]. *)
Definition zero_id_roster : list Child.t :=
  [ Child.mk (Fin 0) "Ada Lee" "2022-05-01" "universal_15"
      (week 3 3 3 3 3) (Fin 0) false ].

(** A roster whose only child carries an entitlement outside the catalogue. *)
Definition unvalidated_roster : list Child.t :=
  [ Child.mk (Fin 1) "Ben Cole" "2022-05-01" "after_school"
      (week 3 3 3 3 3) (Fin 0) false ].

(** Midnight UTC of 2026-11-01, well after the 38th term week began. *)
Definition after_term : Z := 1793491200000.

(** A clock reading in the 28th term week: ten weeks remain. *)
Definition ten_weeks_left : Z := (termStart + 27 * 604800000)%Z.

(** A filled-in add-child form over the sample roster. *)
Definition sample_draft : NewChild.t :=
  NewChild.mk "Noah Patel" "2022-09-01" "universal_15" (week 3 3 3 3 3)
    (Fin 0) false.

Definition sample_form : AddChild.state :=
  AddChild.mk SAMPLE_CHILDREN sample_draft true.

(** A reading of [Date.now()]. *)
Definition sample_now : Z := 1793491200123.

(** A child booked for one hour a week more than the term-time funding, at
    a provider open 39 weeks a year. *)
Definition stretch_roster : list Child.t :=
  [ Child.mk (Fin 4) "Mia Jones" "2022-02-02" "universal_15"
      (week 4 4 4 4 0) (Fin 400) false ].

Definition settings_39_weeks : ProviderSettings.t :=
  ProviderSettings.mk (Fin (15 # 2)) (Fin 39) (Fin (7 # 2)) (Fin (3 # 2)).

(* ================================================================== *)
(** ** Rounding as the specification words it *)

(** Round half up: the integer below, or the next one from the half on. *)
Definition round_half_up (y : Q) : Z :=
  let n := Qfloor y in
  if Qle_bool (1 # 2) (y - inject_Z n) then (n + 1)%Z else n.

(** [round2(x)]: round half up on the value scaled by 100. *)
Definition round2 (x : Q) : Q := inject_Z (round_half_up (x * 100)) / 100.

(* ================================================================== *)
(** * Properties *)

(** ** Numbers *)

Lemma Qltb_lt (a b : Q) : Qltb a b = true <-> a < b.
Proof.
  unfold Qltb. rewrite negb_true_iff.
  split; intro H.
  - apply Qnot_le_lt. intro Hle. apply Qle_bool_iff in Hle. congruence.
  - destruct (Qle_bool b a) eqn:E; [|reflexivity].
    apply Qle_bool_iff in E. lra.
Qed.

Lemma Qltb_ge (a b : Q) : Qltb a b = false <-> b <= a.
Proof.
  unfold Qltb. rewrite negb_false_iff. apply Qle_bool_iff.
Qed.

Lemma Qeq_bool_false (a b : Q) : ~ a == b -> Qeq_bool a b = false.
Proof.
  intro H. destruct (Qeq_bool a b) eqn:E; [|reflexivity].
  apply Qeq_bool_iff in E. contradiction.
Qed.

Lemma equiv_refl (a : jsnum) : (a === a)%js.
Proof. destruct a; simpl; auto. reflexivity. Qed.

Lemma equiv_sym (a b : jsnum) : (a === b)%js -> (b === a)%js.
Proof. destruct a, b; simpl; auto. intro H; now symmetry. Qed.

Lemma equiv_trans (a b c : jsnum) :
  (a === b)%js -> (b === c)%js -> (a === c)%js.
Proof.
  destruct a, b, c; simpl; auto; try contradiction.
  intros H1 H2. now rewrite H1.
Qed.

(** The floor is the only integer [n] with [n <= x < n + 1]. *)
Lemma Qfloor_unique (x : Q) (n : Z) :
  inject_Z n <= x -> x < inject_Z (n + 1) -> Qfloor x = n.
Proof.
  intros Hlo Hhi.
  assert (H1 : (n <= Qfloor x)%Z).
  { rewrite <- (Qfloor_Z n). now apply Qfloor_resp_le. }
  assert (H2 : (Qfloor x < n + 1)%Z).
  { rewrite Zlt_Qlt. eapply Qle_lt_trans; [apply Qfloor_le | exact Hhi]. }
  lia.
Qed.

(** [Math.round] rounds half up. *)
Lemma Qfloor_half_up (y : Q) : Qfloor (y + (1 # 2)) = round_half_up y.
Proof.
  unfold round_half_up.
  pose proof (Qfloor_le y) as Hlo.
  pose proof (Qlt_floor y) as Hhi.
  rewrite inject_Z_plus in Hhi. change (inject_Z 1) with 1 in Hhi.
  destruct (Qle_bool (1 # 2) (y - inject_Z (Qfloor y))) eqn:E.
  - apply Qle_bool_iff in E.
    apply Qfloor_unique; rewrite ?inject_Z_plus; change (inject_Z 1) with 1; lra.
  - assert (Hlt : y - inject_Z (Qfloor y) < 1 # 2).
    { apply Qnot_le_lt. intro Hle. apply Qle_bool_iff in Hle. congruence. }
    apply Qfloor_unique; rewrite ?inject_Z_plus; change (inject_Z 1) with 1; lra.
Qed.

Lemma round_to_cents_Fin (x : Q) :
  round_to_cents (Fin x) = Fin (inject_Z (Qfloor (x * 100 + (1 # 2))) / 100).
Proof. reflexivity. Qed.

(** The source's [Math.round(x * 100) / 100] is the specification's
    [round2]. *)
Lemma round_to_cents_round2 (x : Q) : round_to_cents (Fin x) = Fin (round2 x).
Proof.
  rewrite round_to_cents_Fin. unfold round2. now rewrite Qfloor_half_up.
Qed.

Lemma round_to_cents_mono (x y : Q) :
  x <= y ->
  inject_Z (Qfloor (x * 100 + (1 # 2))) / 100
  <= inject_Z (Qfloor (y * 100 + (1 # 2))) / 100.
Proof.
  intro H.
  assert (Hz : (Qfloor (x * 100 + (1 # 2)) <= Qfloor (y * 100 + (1 # 2)))%Z).
  { apply Qfloor_resp_le. lra. }
  rewrite Zle_Qle in Hz.
  unfold Qdiv. apply Qmult_le_compat_r; [exact Hz | discriminate].
Qed.

(** ** Registry *)

Lemma own_property_None {A} (k : string) (o : list (string * A)) :
  ~ In k (map fst o) -> own_property k o = None.
Proof.
  induction o as [|[k' v] o IH]; simpl; intro H; [reflexivity|].
  destruct (String.eqb_spec k k') as [->|Hne].
  - exfalso. apply H. now left.
  - apply IH. intro Hin. apply H. now right.
Qed.

Lemma catalogued_cases (key : string) (s : FundingScheme.t) :
  In (key, s) FUNDING_SCHEMES ->
  lookup_scheme key = Own s /\
  (FundingScheme.hoursPerYear s = Fin 570
   \/ FundingScheme.hoursPerYear s = Fin 1140) /\
  FundingScheme.weeksTermTime s = Fin 38.
Proof.
  unfold FUNDING_SCHEMES. simpl.
  intros [H|[H|[H|[H|[]]]]]; inversion H; subst; simpl; auto.
Qed.

Lemma is_catalogued_In (key : string) :
  is_catalogued key -> exists s, In (key, s) FUNDING_SCHEMES.
Proof.
  unfold is_catalogued. rewrite in_map_iff.
  intros [[k s] [Hk Hin]]. simpl in Hk. subst. now exists s.
Qed.

Lemma div_Fin_pos (x y : Q) : 0 < y -> (Fin x / Fin y)%js = Fin (x / y).
Proof.
  intro H. simpl. rewrite Qeq_bool_false; [reflexivity | lra].
Qed.

Lemma Qdiv_antitone (h a b : Q) :
  0 <= h -> 0 < a -> a <= b -> h / b <= h / a.
Proof.
  intros Hh Ha Hab.
  assert (Hq : 0 <= h / a) by (apply Qle_shift_div_l; lra).
  assert (He : h == h / a * a) by (field; lra).
  apply Qle_shift_div_r; [lra|].
  rewrite He at 1. nra.
Qed.

(** ** Funded weekly hours *)

(** C3: for every scheme of the registry and every operating-weeks value,
    the term-time funded weekly hours are [round2 (hoursPerYear / 38)],
    whatever the operating-weeks value is. *)
Theorem term_time_funded_hours (key : string) (s : FundingScheme.t) :
  In (key, s) FUNDING_SCHEMES ->
  exists h : Q,
    FundingScheme.hoursPerYear s = Fin h /\
    forall W : jsnum,
      calculateFundedWeeklyHours key false W = Ok (Fin (round2 (h / 38))).
Proof.
  intro Hin.
  destruct (catalogued_cases key s Hin) as (Hl & Hh & Hw).
  assert (Hcalc : forall h W, FundingScheme.hoursPerYear s = Fin h ->
            calculateFundedWeeklyHours key false W = Ok (Fin (round2 (h / 38)))).
  { intros h W Hs. unfold calculateFundedWeeklyHours.
    rewrite Hl. simpl. rewrite Hs, Hw.
    rewrite div_Fin_pos by reflexivity.
    now rewrite round_to_cents_round2. }
  destruct Hh as [Hs|Hs]; eexists; (split; [exact Hs | intro W; now apply Hcalc]).
Qed.

Lemma term_time_funded_hours_witness :
  exists h : Q,
    FundingScheme.hoursPerYear extended_30 = Fin h /\
    forall W : jsnum,
      calculateFundedWeeklyHours "extended_30" false W
      = Ok (Fin (round2 (h / 38))).
Proof.
  apply (term_time_funded_hours "extended_30" extended_30).
  simpl. right; right; left. reflexivity.
Defined.

(** C7: for every scheme of the registry, the stretched funded weekly hours
    do not increase when the operating weeks grow from 39 to 52. *)
Theorem stretched_funded_hours_antitone
    (key : string) (s : FundingScheme.t) (W1 W2 : Z) :
  In (key, s) FUNDING_SCHEMES ->
  (39 <= W1)%Z -> (W1 <= W2)%Z -> (W2 <= 52)%Z ->
  exists r1 r2 : Q,
    calculateFundedWeeklyHours key true (Js.of_Z W1) = Ok (Fin r1) /\
    calculateFundedWeeklyHours key true (Js.of_Z W2) = Ok (Fin r2) /\
    r2 <= r1.
Proof.
  intros Hin H39 H12 H52.
  destruct (catalogued_cases key s Hin) as (Hl & Hh & _).
  assert (Hpos1 : 0 < inject_Z W1).
  { change 0 with (inject_Z 0). rewrite <- Zlt_Qlt. lia. }
  assert (Hle : inject_Z W1 <= inject_Z W2) by now rewrite <- Zle_Qle.
  assert (Hpos2 : 0 < inject_Z W2) by lra.
  assert (Hgen : forall h, 0 <= h -> FundingScheme.hoursPerYear s = Fin h ->
    exists r1 r2 : Q,
      calculateFundedWeeklyHours key true (Js.of_Z W1) = Ok (Fin r1) /\
      calculateFundedWeeklyHours key true (Js.of_Z W2) = Ok (Fin r2) /\
      r2 <= r1).
  { intros h Hh0 Hs. unfold calculateFundedWeeklyHours, Js.of_Z.
    rewrite Hl. simpl bind. rewrite Hs.
    rewrite !div_Fin_pos by assumption.
    rewrite !round_to_cents_Fin.
    do 2 eexists. split; [reflexivity|]. split; [reflexivity|].
    apply round_to_cents_mono. now apply Qdiv_antitone. }
  destruct Hh as [Hs|Hs]; eapply Hgen; try exact Hs; discriminate.
Qed.

Lemma stretched_funded_hours_antitone_witness :
  exists r1 r2 : Q,
    calculateFundedWeeklyHours "extended_30" true (Js.of_Z 39) = Ok (Fin r1) /\
    calculateFundedWeeklyHours "extended_30" true (Js.of_Z 51) = Ok (Fin r2) /\
    r2 <= r1.
Proof.
  apply (stretched_funded_hours_antitone "extended_30" extended_30 39 51).
  - simpl. right; right; left. reflexivity.
  - lia.
  - lia.
  - lia.
Defined.

(** C2, as the code has it: an id outside the catalogue never resolves to a
    scheme; [calculateFundedWeeklyHours] then throws a [TypeError], or
    returns [NaN] when the id names a member of [Object.prototype]. *)
Theorem uncatalogued_scheme_id (key : string) :
  ~ is_catalogued key ->
  (lookup_scheme key = Undefined /\
   forall stretched W,
     calculateFundedWeeklyHours key stretched W = Throw TypeError)
  \/
  (lookup_scheme key = Inherited /\ In key object_prototype_keys /\
   forall stretched W,
     calculateFundedWeeklyHours key stretched W = Ok NaN).
Proof.
  intro Hnot.
  pose proof (own_property_None key FUNDING_SCHEMES Hnot) as Hown.
  unfold calculateFundedWeeklyHours, lookup_scheme. rewrite Hown.
  destruct (existsb (String.eqb key) object_prototype_keys) eqn:E.
  - right. split; [reflexivity|]. split.
    + apply existsb_exists in E. destruct E as (k & Hk & Heq).
      apply String.eqb_eq in Heq. now subst.
    + intros [] W; reflexivity.
  - left. split; [reflexivity|]. intros [] W; reflexivity.
Qed.

Lemma uncatalogued_scheme_id_witness :
  (lookup_scheme "after_school" = Undefined /\
   forall stretched W,
     calculateFundedWeeklyHours "after_school" stretched W = Throw TypeError)
  \/
  (lookup_scheme "after_school" = Inherited /\
   In "after_school"%string object_prototype_keys /\
   forall stretched W,
     calculateFundedWeeklyHours "after_school" stretched W = Ok NaN).
Proof.
  apply (uncatalogued_scheme_id "after_school").
  unfold is_catalogued. simpl.
  intros [H|[H|[H|[H|[]]]]]; discriminate H.
Defined.

(** C2 fails as stated: on an id that is not catalogued the function throws
    instead of returning a not-found value. *)
Lemma unknown_scheme_throws :
  ~ is_catalogued "after_school" /\
  calculateFundedWeeklyHours "after_school" false (Fin 51) = Throw TypeError /\
  calculateFundedWeeklyHours "after_school" true (Fin 51) = Throw TypeError.
Proof.
  split; [|split; reflexivity].
  unfold is_catalogued. simpl.
  intros [H|[H|[H|[H|[]]]]]; discriminate H.
Qed.

Lemma calculateFundedWeeklyHours_catalogued
    (key : string) (stretched : bool) (W : jsnum) :
  is_catalogued key ->
  exists r, calculateFundedWeeklyHours key stretched W = Ok r.
Proof.
  intro Hc. destruct (is_catalogued_In key Hc) as [s Hin].
  destruct (catalogued_cases key s Hin) as (Hl & _ & _).
  unfold calculateFundedWeeklyHours. rewrite Hl.
  destruct stretched; simpl; eexists; reflexivity.
Qed.

(** ** [Math.max] and [Math.min] *)

Lemma max_zero_not_negative (x : jsnum) :
  (Js.max (Fin 0) x <? Fin 0)%js = false.
Proof.
  destruct x as [q| | |]; simpl; try reflexivity.
  destruct (Qltb 0 q) eqn:E; simpl.
  - apply Qltb_lt in E. apply Qltb_ge. lra.
  - reflexivity.
Qed.

Lemma max_zero_Fin (x : Q) : (Js.max (Fin 0) (Fin x) === Fin (Qmax 0 x))%js.
Proof.
  simpl. destruct (Qltb 0 x) eqn:E; simpl.
  - apply Qltb_lt in E. symmetry. apply Q.max_r. lra.
  - apply Qltb_ge in E. symmetry. apply Q.max_l. exact E.
Qed.

Lemma min_Fin (x y : Q) : (Js.min (Fin x) (Fin y) === Fin (Qmin x y))%js.
Proof.
  simpl. destruct (Qltb y x) eqn:E; simpl.
  - apply Qltb_lt in E. symmetry. apply Q.min_r. lra.
  - apply Qltb_ge in E. symmetry. apply Q.min_l. exact E.
Qed.

Lemma max_zero_of_nonnegative (x : jsnum) :
  Js.le (Fin 0) x = true -> (Js.max (Fin 0) x === x)%js.
Proof.
  destruct x as [q| | |]; simpl; try discriminate; auto.
  intro H. apply Qle_bool_iff in H.
  destruct (Qltb 0 q) eqn:E; simpl; [reflexivity|].
  apply Qltb_ge in E. lra.
Qed.

Lemma lt_equiv_r (a b c : jsnum) :
  (b === c)%js -> (a <? b)%js = (a <? c)%js.
Proof.
  destruct a, b, c; simpl; try contradiction; auto.
  intro H. unfold Qltb. now rewrite H.
Qed.


Lemma max_zero_nonnegative (x : jsnum) :
  x <> NaN -> Js.le (Fin 0) (Js.max (Fin 0) x) = true.
Proof.
  destruct x as [q| | |]; simpl; try reflexivity; [|congruence].
  intros _. destruct (Qltb 0 q) eqn:E; simpl.
  - apply Qltb_lt in E. apply Qle_bool_iff. lra.
  - reflexivity.
Qed.

(** ** Quotation *)

Section Quotation.
Variable children : list Child.t.
Variable providerSettings : ProviderSettings.t.
Variable quotation : Quotation.t.

Let hourlyRate := ProviderSettings.hourlyRate providerSettings.

(** Every field of a generated quote, as the source computes it. *)
Lemma generateQuotation_inv (q : Quote.t) :
  generateQuotation children providerSettings quotation = Ok (Some q) ->
  (exists childId,
      Quotation.childId quotation = Some childId /\
      Js.truthy childId = true /\
      find (fun c => Js.strict_eq (Child.id c) childId) children
      = Some (Quote.child q)) /\
  calculateFundedWeeklyHours (Child.entitlement (Quote.child q))
    (Child.stretchedOption (Quote.child q))
    (ProviderSettings.operatingWeeks providerSettings)
  = Ok (Quote.fundedWeekly q) /\
  Quote.weeklyBooked q = getWeeklyHours (Child.weeklyPattern (Quote.child q)) /\
  Quote.chargeableHours q
  = Js.max (Fin 0) (Quote.weeklyBooked q - Quote.fundedWeekly q)%js /\
  Quote.weeklySessionCost q = (Quote.weeklyBooked q * hourlyRate)%js /\
  Quote.weeklyFundedValue q
  = (Js.min (Quote.weeklyBooked q) (Quote.fundedWeekly q) * hourlyRate)%js /\
  Quote.weeklyChargeableHours q = (Quote.chargeableHours q * hourlyRate)%js /\
  Quote.weeklyMeals q
  = (if Quotation.includeMeals quotation
     then (Quotation.mealsPerWeek quotation
           * ProviderSettings.mealCharge providerSettings)%js
     else Fin 0) /\
  Quote.weeklyConsumables q
  = (if Quotation.includeConsumables quotation
     then (ProviderSettings.consumablesCharge providerSettings * Fin 5)%js
     else Fin 0) /\
  Quote.weeklyTotal q
  = (Quote.weeklyChargeableHours q + Quote.weeklyMeals q
     + Quote.weeklyConsumables q)%js /\
  Quote.periodTotal q
  = (Quote.weeklyTotal q * Quotation.weeksToQuote quotation)%js /\
  Quote.weeks q = Quotation.weeksToQuote quotation.
Proof.
  unfold generateQuotation.
  destruct (Quotation.childId quotation) as [childId|]; [|discriminate].
  destruct (Js.truthy childId) eqn:Ht; simpl; [|discriminate].
  destruct (find _ children) as [child|] eqn:Hf; [|discriminate].
  destruct (calculateFundedWeeklyHours _ _ _) as [fw|e] eqn:Hc;
    simpl; [|discriminate].
  intro H. inversion H; subst q; clear H. simpl.
  split; [exists childId; auto|].
  repeat split; auto.
Qed.

(** A truthy [childId] that finds a child with a catalogued entitlement
    yields a quote for that child. *)
Lemma generateQuotation_found (childId : jsnum) (child : Child.t) :
  Quotation.childId quotation = Some childId ->
  Js.truthy childId = true ->
  find (fun c => Js.strict_eq (Child.id c) childId) children = Some child ->
  is_catalogued (Child.entitlement child) ->
  exists q,
    generateQuotation children providerSettings quotation = Ok (Some q) /\
    Quote.child q = child.
Proof.
  intros Hid Ht Hf Hc.
  destruct (calculateFundedWeeklyHours_catalogued
              (Child.entitlement child) (Child.stretchedOption child)
              (ProviderSettings.operatingWeeks providerSettings) Hc)
    as [fw Hfw].
  unfold generateQuotation. rewrite Hid, Ht. simpl. rewrite Hf, Hfw. simpl.
  eexists. split; reflexivity.
Qed.

(** C4: in every generated quote with non-negative booked and funded
    hours, the chargeable hours are [max(0, booked - funded)]: never
    negative, and exactly zero when the funded hours exceed the booked
    ones. *)
Theorem chargeableHours_clamped (q : Quote.t) :
  generateQuotation children providerSettings quotation = Ok (Some q) ->
  Js.le (Fin 0) (Quote.weeklyBooked q) = true ->
  Js.le (Fin 0) (Quote.fundedWeekly q) = true ->
  (Quote.chargeableHours q <? Fin 0)%js = false /\
  ((Quote.weeklyBooked q <? Quote.fundedWeekly q)%js = true ->
   Quote.chargeableHours q = Fin 0) /\
  (forall booked funded : Q,
      Quote.weeklyBooked q = Fin booked ->
      Quote.fundedWeekly q = Fin funded ->
      (Quote.chargeableHours q === Fin (Qmax 0 (booked - funded)))%js /\
      Js.le (Fin 0) (Quote.chargeableHours q) = true).
Proof.
  intros Hq Hb Hf.
  destruct (generateQuotation_inv q Hq) as (_ & _ & _ & Hch & _).
  rewrite Hch. split; [apply max_zero_not_negative|]. split.
  - destruct (Quote.weeklyBooked q) as [b| | |],
             (Quote.fundedWeekly q) as [f| | |];
      simpl in *; try discriminate; try reflexivity.
    intro Hlt. apply Qltb_lt in Hlt.
    destruct (Qltb 0 (b + - f)) eqn:E; [|reflexivity].
    apply Qltb_lt in E. lra.
  - intros booked funded -> ->. split.
    + apply max_zero_Fin.
    + apply max_zero_nonnegative. discriminate.
Qed.

(** C5: in every generated quote the consumables are charged for five
    days when included and not at all otherwise, the meals per meal when
    included, the weekly total adds the chargeable-hours cost, the meals
    and the consumables, and the period total multiplies it by the number
    of weeks. *)
Theorem quote_cost_breakdown (q : Quote.t) :
  generateQuotation children providerSettings quotation = Ok (Some q) ->
  Quote.weeklyConsumables q
  = (if Quotation.includeConsumables quotation
     then (ProviderSettings.consumablesCharge providerSettings * Fin 5)%js
     else Fin 0) /\
  Quote.weeklyMeals q
  = (if Quotation.includeMeals quotation
     then (Quotation.mealsPerWeek quotation
           * ProviderSettings.mealCharge providerSettings)%js
     else Fin 0) /\
  Quote.weeklyChargeableHours q
  = (Quote.chargeableHours q
     * ProviderSettings.hourlyRate providerSettings)%js /\
  Quote.weeklyTotal q
  = (Quote.weeklyChargeableHours q + Quote.weeklyMeals q
     + Quote.weeklyConsumables q)%js /\
  Quote.periodTotal q
  = (Quote.weeklyTotal q * Quotation.weeksToQuote quotation)%js.
Proof.
  intro Hq.
  destruct (generateQuotation_inv q Hq)
    as (_ & _ & _ & _ & _ & _ & Hc & Hm & Hk & Ht & Hp & _).
  auto.
Qed.

(** C10: in every generated quote with finite figures, the session cost
    is the funded value plus the chargeable cost:
    [booked * rate = min(booked, funded) * rate
                     + max(0, booked - funded) * rate]. *)
Theorem quote_cost_decomposition (q : Quote.t) (booked funded rate : Q) :
  generateQuotation children providerSettings quotation = Ok (Some q) ->
  Quote.weeklyBooked q = Fin booked ->
  Quote.fundedWeekly q = Fin funded ->
  ProviderSettings.hourlyRate providerSettings = Fin rate ->
  0 <= booked -> 0 <= funded -> 0 <= rate ->
  (Quote.weeklySessionCost q
   === Quote.weeklyFundedValue q + Quote.weeklyChargeableHours q)%js /\
  (Quote.weeklySessionCost q === Fin (booked * rate))%js /\
  (Quote.weeklyFundedValue q === Fin (Qmin booked funded * rate))%js /\
  (Quote.weeklyChargeableHours q
   === Fin (Qmax 0 (booked - funded) * rate))%js /\
  booked * rate
  == Qmin booked funded * rate + Qmax 0 (booked - funded) * rate.
Proof.
  intros Hq Hb Hf Hr _ _ _.
  destruct (generateQuotation_inv q Hq)
    as (_ & _ & _ & Hch & Hs & Hv & Hc & _).
  subst hourlyRate.
  rewrite Hc, Hch, Hs, Hv, Hb, Hf, Hr. clear.
  assert (Hid : booked * rate
                == Qmin booked funded * rate
                   + Qmax 0 (booked - funded) * rate).
  { destruct (Qlt_le_dec funded booked) as [Hlt|Hle].
    - rewrite (Q.min_r booked funded), (Q.max_r 0 (booked - funded)) by lra.
      ring.
    - rewrite (Q.min_l booked funded), (Q.max_l 0 (booked - funded)) by lra.
      ring. }
  pose proof (max_zero_Fin (booked - funded)) as Hmax.
  pose proof (min_Fin booked funded) as Hmin.
  change (Fin booked - Fin funded)%js with (Fin (booked - funded)).
  destruct (Js.max (Fin 0) (Fin (booked - funded))) as [c| | |];
    simpl in Hmax; try contradiction.
  destruct (Js.min (Fin booked) (Fin funded)) as [m| | |];
    simpl in Hmin; try contradiction.
  simpl. rewrite Hmax, Hmin.
  repeat split; try reflexivity; try exact Hid.
Qed.

End Quotation.

Lemma quote_sample_generated :
  exists q,
    generateQuotation SAMPLE_CHILDREN default_settings sample_quotation
    = Ok (Some q) /\
    Quote.weeklyBooked q = Fin 15 /\
    Quote.fundedWeekly q = Fin (1118 # 100).
Proof. eexists. split; [reflexivity|]. split; reflexivity. Qed.

Lemma chargeableHours_clamped_witness :
  exists q,
    generateQuotation SAMPLE_CHILDREN default_settings sample_quotation
    = Ok (Some q) /\
    (Quote.chargeableHours q <? Fin 0)%js = false /\
    ((Quote.weeklyBooked q <? Quote.fundedWeekly q)%js = true ->
     Quote.chargeableHours q = Fin 0) /\
    (forall booked funded : Q,
        Quote.weeklyBooked q = Fin booked ->
        Quote.fundedWeekly q = Fin funded ->
        (Quote.chargeableHours q === Fin (Qmax 0 (booked - funded)))%js /\
        Js.le (Fin 0) (Quote.chargeableHours q) = true).
Proof.
  eexists. split; [reflexivity|].
  apply (chargeableHours_clamped SAMPLE_CHILDREN default_settings
           sample_quotation); reflexivity.
Defined.

Lemma quote_cost_breakdown_witness :
  exists q,
    generateQuotation SAMPLE_CHILDREN default_settings sample_quotation
    = Ok (Some q) /\
    Quote.weeklyConsumables q = (Fin (3 # 2) * Fin 5)%js /\
    Quote.weeklyMeals q = (Fin 5 * Fin (7 # 2))%js /\
    Quote.weeklyChargeableHours q
    = (Quote.chargeableHours q * Fin (15 # 2))%js /\
    Quote.weeklyTotal q
    = (Quote.weeklyChargeableHours q + Quote.weeklyMeals q
       + Quote.weeklyConsumables q)%js /\
    Quote.periodTotal q = (Quote.weeklyTotal q * Fin 4)%js.
Proof.
  eexists. split; [reflexivity|].
  apply (quote_cost_breakdown SAMPLE_CHILDREN default_settings
           sample_quotation).
  reflexivity.
Defined.

Lemma quote_cost_decomposition_witness :
  exists q,
    generateQuotation SAMPLE_CHILDREN default_settings sample_quotation
    = Ok (Some q) /\
    (Quote.weeklySessionCost q
     === Quote.weeklyFundedValue q + Quote.weeklyChargeableHours q)%js /\
    (Quote.weeklySessionCost q === Fin (15 * (15 # 2)))%js /\
    (Quote.weeklyFundedValue q
     === Fin (Qmin 15 (1118 # 100) * (15 # 2)))%js /\
    (Quote.weeklyChargeableHours q
     === Fin (Qmax 0 (15 - (1118 # 100)) * (15 # 2)))%js /\
    15 * (15 # 2)
    == Qmin 15 (1118 # 100) * (15 # 2)
       + Qmax 0 (15 - (1118 # 100)) * (15 # 2).
Proof.
  eexists. split; [reflexivity|].
  apply (quote_cost_decomposition SAMPLE_CHILDREN default_settings
           sample_quotation _ 15 (1118 # 100) (15 # 2));
    try reflexivity; discriminate.
Defined.

(** C8, as the code has it: no child selected, or no roster child with the
    selected id, gives [null] without an error; a non-zero selected id that
    matches roster children with catalogued entitlements gives a quote for
    one of them. *)
Theorem generateQuotation_result
    (children : list Child.t) (providerSettings : ProviderSettings.t)
    (quotation : Quotation.t) :
  (Quotation.childId quotation = None ->
   generateQuotation children providerSettings quotation = Ok None) /\
  (forall childId,
      Quotation.childId quotation = Some childId ->
      (forall c, In c children -> Js.strict_eq (Child.id c) childId = false) ->
      generateQuotation children providerSettings quotation = Ok None) /\
  (forall childId,
      Quotation.childId quotation = Some childId ->
      Js.truthy childId = true ->
      (exists c, In c children /\ Js.strict_eq (Child.id c) childId = true) ->
      (forall c, In c children -> Js.strict_eq (Child.id c) childId = true ->
                 is_catalogued (Child.entitlement c)) ->
      exists q,
        generateQuotation children providerSettings quotation = Ok (Some q) /\
        In (Quote.child q) children /\
        Js.strict_eq (Child.id (Quote.child q)) childId = true).
Proof.
  split; [|split].
  - intro Hnone. unfold generateQuotation. now rewrite Hnone.
  - intros childId Hid Hno. unfold generateQuotation. rewrite Hid.
    destruct (negb (Js.truthy childId)); [reflexivity|].
    destruct (find _ children) as [c|] eqn:Hf; [|reflexivity].
    apply find_some in Hf. destruct Hf as [Hin Heq].
    rewrite (Hno c Hin) in Heq. discriminate.
  - intros childId Hid Ht (c & Hin & Heq) Hcat.
    destruct (find (fun c => Js.strict_eq (Child.id c) childId) children)
      as [c'|] eqn:Hf.
    + pose proof (find_some _ _ Hf) as [Hin' Heq'].
      destruct (generateQuotation_found children providerSettings quotation
                  childId c' Hid Ht Hf (Hcat c' Hin' Heq')) as (q & Hq & Hc).
      exists q. rewrite Hc. auto.
    + pose proof (find_none _ _ Hf c Hin) as Hcontra. simpl in Hcontra.
      rewrite Heq in Hcontra. discriminate.
Qed.

Lemma generateQuotation_result_witness :
  exists q,
    generateQuotation SAMPLE_CHILDREN default_settings sample_quotation
    = Ok (Some q) /\
    In (Quote.child q) SAMPLE_CHILDREN /\
    Js.strict_eq (Child.id (Quote.child q)) (Fin 2) = true.
Proof.
  apply (proj2 (proj2 (generateQuotation_result
                         SAMPLE_CHILDREN default_settings sample_quotation))
           (Fin 2)).
  - reflexivity.
  - reflexivity.
  - eexists. split; [right; left; reflexivity | reflexivity].
  - intros c [<-|[<-|[<-|[]]]]; simpl; try discriminate.
    intros _. unfold is_catalogued. simpl. auto.
Defined.

(** C8 fails as stated: a selected id that matches a roster child gives no
    quote when that id is [0], and raises an error when the child's
    entitlement is not catalogued. *)
Lemma matching_child_without_quote :
  ((exists c, In c zero_id_roster /\ Js.strict_eq (Child.id c) (Fin 0) = true)
   /\ generateQuotation zero_id_roster default_settings (quotation_for (Fin 0))
      = Ok None)
  /\
  ((exists c, In c unvalidated_roster
              /\ Js.strict_eq (Child.id c) (Fin 1) = true)
   /\ generateQuotation unvalidated_roster default_settings
        (quotation_for (Fin 1))
      = Throw TypeError).
Proof.
  split; (split; [eexists; split; [left; reflexivity | reflexivity]
                 | reflexivity]).
Qed.

(** ** Updating the hours used *)

(** C9: the update stores [max(0, hours)] for the children with the given id
    and leaves the others alone; the stored value is never negative, a
    negative input is stored as [0], and a non-negative one is stored as
    given, also when it exceeds the scheme's annual hours. *)
Theorem updateChildHours_clamps
    (children : list Child.t) (id hours : jsnum) (i : nat) (c : Child.t) :
  nth_error children i = Some c ->
  exists c',
    nth_error (updateChildHours id hours children) i = Some c' /\
    (Js.strict_eq (Child.id c) id = false -> c' = c) /\
    (Js.strict_eq (Child.id c) id = true ->
     c' = Child.with_hoursUsed c (Js.max (Fin 0) hours) /\
     (hours <> NaN -> Js.le (Fin 0) (Child.hoursUsed c') = true) /\
     ((hours <? Fin 0)%js = true -> Child.hoursUsed c' = Fin 0) /\
     (Js.le (Fin 0) hours = true -> (Child.hoursUsed c' === hours)%js) /\
     (forall s, In (Child.entitlement c, s) FUNDING_SCHEMES ->
                (FundingScheme.hoursPerYear s <? hours)%js = true ->
                (Child.hoursUsed c' === hours)%js /\
                (FundingScheme.hoursPerYear s <? Child.hoursUsed c')%js = true)).
Proof.
  intro Hnth. unfold updateChildHours.
  eexists. split; [apply map_nth_error; exact Hnth|]. simpl.
  split; intro Heq; rewrite Heq; [reflexivity|].
  split; [reflexivity|]. simpl.
  split; [apply max_zero_nonnegative|].
  split; [|split].
  - destruct hours as [h| | |]; simpl; try discriminate; try reflexivity.
    intro Hlt. apply Qltb_lt in Hlt.
    destruct (Qltb 0 h) eqn:E; [|reflexivity].
    apply Qltb_lt in E. lra.
  - apply max_zero_of_nonnegative.
  - intros s Hin Hlt.
    destruct (catalogued_cases _ s Hin) as (_ & Hh & _).
    assert (Hpos : Js.le (Fin 0) hours = true).
    { destruct hours as [h| | |]; try reflexivity;
        destruct Hh as [Hh|Hh]; rewrite Hh in Hlt; simpl in Hlt;
        try discriminate; apply Qltb_lt in Hlt; apply Qle_bool_iff; lra. }
    pose proof (max_zero_of_nonnegative hours Hpos) as Hmax.
    split; [exact Hmax|].
    now rewrite (lt_equiv_r _ _ _ Hmax).
Qed.

Lemma updateChildHours_clamps_witness :
  exists c',
    nth_error (updateChildHours (Fin 2) (Fin 600) SAMPLE_CHILDREN) 1
    = Some c' /\
    Child.hoursUsed c' = Fin 600 /\
    Js.le (Fin 0) (Child.hoursUsed c') = true /\
    (FundingScheme.hoursPerYear eligible_2yr <? Child.hoursUsed c')%js = true.
Proof.
  destruct (updateChildHours_clamps SAMPLE_CHILDREN (Fin 2) (Fin 600) 1%nat
              (Child.mk (Fin 2) "Oliver Smith" "2023-06-20" "eligible_2yr"
                 (week 5 5 5 0 0) (Fin 180) true) eq_refl)
    as (c' & Hnth & _ & Hupd).
  exists c'. split; [exact Hnth|].
  destruct (Hupd eq_refl) as (Hc & Hpos & _ & _ & Hcap).
  split; [rewrite Hc; reflexivity|].
  split; [apply Hpos; discriminate|].
  apply (Hcap eligible_2yr); [right; left; reflexivity | reflexivity].
Defined.

(** ** Summary *)








(** ** Optimisation suggestions *)

(** After week 37 of the term the estimate stays at week 38. *)
Lemma getCurrentTermWeek_last (today : Z) :
  (termStart + 37 * 604800000 <= today)%Z -> getCurrentTermWeek today = 38%Z.
Proof.
  intro H. unfold getCurrentTermWeek.
  change (7 * 24 * 60 * 60 * 1000)%Z with 604800000%Z.
  assert (37 <= (today - termStart) / 604800000)%Z.
  { apply Z.div_le_lower_bound; lia. }
  lia.
Qed.

(** With no week left, a shortfall on a catalogued scheme is divided by
    zero: the recommended increase is [Infinity]. *)
Lemma shortfall_per_week_no_weeks (hpy projected : jsnum) :
  hpy = Fin 570 \/ hpy = Fin 1140 ->
  (projected <? hpy * Fin (85 # 100))%js = true ->
  Js.ceil ((hpy - projected) / Fin 0)%js = PInf.
Proof.
  intros Hh Hlt.
  assert (Hgen : forall h, 0 <= h ->
            (projected <? Fin h * Fin (85 # 100))%js = true ->
            Js.ceil ((Fin h - projected) / Fin 0)%js = PInf).
  { intros h Hpos Hfire.
    destruct projected as [p| | |]; simpl in Hfire; try discriminate;
      [|reflexivity].
    apply Qltb_lt in Hfire.
    assert (Hsf : 0 < h + - p) by lra.
    unfold Js.sub. simpl.
    rewrite Qeq_bool_false by lra.
    apply Qltb_lt in Hsf. now rewrite Hsf. }
  destruct Hh as [-> | ->]; apply Hgen; try exact Hlt; discriminate.
Qed.

Section Advisor.
Variable weeksRemaining : jsnum.
Variable providerSettings : ProviderSettings.t.

(** One round of the loop appends to the suggestions, the
    under-utilisation warning among them when its condition fires. *)
Lemma optimisations_step_appends
    (child : Child.t) (s : FundingScheme.t)
    (suggestions : list Suggestion.t) :
  In (Child.entitlement child, s) FUNDING_SCHEMES ->
  exists added,
    optimisations_step weeksRemaining providerSettings child suggestions
    = Ok (suggestions ++ added) /\
    ((projectedUsage weeksRemaining child
      <? FundingScheme.hoursPerYear s * Fin (85 # 100))%js = true ->
     In (underUtilisation weeksRemaining child (FundingScheme.hoursPerYear s))
        added).
Proof.
  intro Hin.
  destruct (catalogued_cases _ s Hin) as (Hl & _ & _).
  assert (Hcat : is_catalogued (Child.entitlement child)).
  { unfold is_catalogued. apply in_map_iff. now exists (Child.entitlement child, s). }
  unfold optimisations_step.
  destruct (calculateFundedWeeklyHours_catalogued _
              (Child.stretchedOption child)
              (ProviderSettings.operatingWeeks providerSettings) Hcat)
    as [fw ->].
  destruct (calculateFundedWeeklyHours_catalogued _ true
              (ProviderSettings.operatingWeeks providerSettings) Hcat)
    as [sw ->].
  rewrite Hl. simpl bind.
  set (under := underUtilisation weeksRemaining child
                  (FundingScheme.hoursPerYear s)).
  set (fires := (projectedUsage weeksRemaining child
                 <? FundingScheme.hoursPerYear s * Fin (85 # 100))%js).
  destruct fires;
    destruct (weeklyBooked child >? fw + Fin 2)%js;
    destruct (negb (Child.stretchedOption child)
              && (weeklyBooked child >? fw)%js);
    try destruct (sw >=? weeklyBooked child * Fin (9 # 10))%js;
    rewrite <- ?app_assoc;
    (eexists; split;
     [ first [ reflexivity | rewrite app_nil_r; reflexivity ]
     | intro Hf; first [ discriminate Hf | now left ] ]).
Qed.

(** The whole loop, for a roster of catalogued entitlements. *)
Lemma optimisations_loop (children : list Child.t) :
  Forall (fun c => is_catalogued (Child.entitlement c)) children ->
  forall suggestions,
  exists added,
    forEach (fun suggestions child =>
               optimisations_step weeksRemaining providerSettings child
                 suggestions)
            children suggestions
    = Ok (suggestions ++ added) /\
    forall child s,
      In child children ->
      In (Child.entitlement child, s) FUNDING_SCHEMES ->
      (projectedUsage weeksRemaining child
       <? FundingScheme.hoursPerYear s * Fin (85 # 100))%js = true ->
      In (underUtilisation weeksRemaining child
            (FundingScheme.hoursPerYear s))
         added.
Proof.
  induction 1 as [|c cs Hc _ IH]; intro suggestions.
  - exists []. simpl. rewrite app_nil_r. split; [reflexivity|].
    intros child s [].
  - destruct (is_catalogued_In _ Hc) as [sc Hsc].
    destruct (optimisations_step_appends c sc suggestions Hsc)
      as (added1 & Hstep & Hunder).
    destruct (IH (suggestions ++ added1)) as (added2 & Hrest & Hin2).
    exists (added1 ++ added2). simpl. rewrite Hstep. simpl bind.
    rewrite Hrest, app_assoc. split; [reflexivity|].
    intros child s [<-|Hin] Hs Hfire; apply in_or_app.
    + left.
      destruct (optimisations_step_appends c s suggestions Hs)
        as (added1' & Hstep' & Hunder').
      rewrite Hstep in Hstep'. inversion Hstep' as [Heq].
      apply app_inv_head in Heq. subst added1'. now apply Hunder'.
    + right. now apply (Hin2 child s).
Qed.
End Advisor.

(** C1, as the code has it: when no term week remains and a child's
    under-utilisation condition fires, the emitted warning recommends an
    increase of [Infinity] hours; the division is not guarded. *)
Theorem under_utilisation_unguarded
    (today : Z) (children : list Child.t)
    (providerSettings : ProviderSettings.t)
    (child : Child.t) (s : FundingScheme.t) :
  (38 - getCurrentTermWeek today = 0)%Z ->
  Forall (fun c => is_catalogued (Child.entitlement c)) children ->
  In child children ->
  In (Child.entitlement child, s) FUNDING_SCHEMES ->
  (projectedUsage (Fin 0) child
   <? FundingScheme.hoursPerYear s * Fin (85 # 100))%js = true ->
  exists suggestions warning,
    optimisations today children providerSettings = Ok suggestions /\
    In warning suggestions /\
    Suggestion.child warning = Child.name child /\
    Suggestion.recommendation warning
    = [ Lit "Consider increasing weekly hours by "; Num PInf;
        Lit " hours to maximise funding." ] /\
    In PInf (figures warning).
Proof.
  intros Hweek Hall Hin Hs Hfire.
  unfold optimisations. rewrite Hweek.
  change (Js.of_Z 0) with (Fin 0).
  destruct (optimisations_loop (Fin 0) providerSettings children Hall [])
    as (added & Hrun & Hunder).
  rewrite Hrun.
  exists ([] ++ added),
         (underUtilisation (Fin 0) child (FundingScheme.hoursPerYear s)).
  split; [reflexivity|].
  split; [simpl; now apply Hunder|].
  split; [reflexivity|].
  destruct (catalogued_cases _ s Hs) as (_ & Hh & _).
  pose proof (shortfall_per_week_no_weeks _ _ Hh Hfire) as Hinf.
  unfold underUtilisation, figures.
  cbn [Suggestion.recommendation Suggestion.message].
  rewrite Hinf. split; [reflexivity|].
  apply in_or_app. right. simpl. now left.
Qed.

Lemma under_utilisation_unguarded_witness :
  exists suggestions warning,
    optimisations after_term SAMPLE_CHILDREN default_settings
    = Ok suggestions /\
    In warning suggestions /\
    Suggestion.child warning = "Emma Thompson"%string /\
    Suggestion.recommendation warning
    = [ Lit "Consider increasing weekly hours by "; Num PInf;
        Lit " hours to maximise funding." ] /\
    In PInf (figures warning).
Proof.
  apply (under_utilisation_unguarded after_term SAMPLE_CHILDREN
           default_settings
           (Child.mk (Fin 1) "Emma Thompson" "2022-03-15" "extended_30"
              (week 6 6 6 6 6) (Fin 456) false)
           extended_30).
  - reflexivity.
  - repeat apply Forall_cons; try apply Forall_nil;
      unfold is_catalogued; simpl; auto 6.
  - left. reflexivity.
  - simpl. right; right; left. reflexivity.
  - reflexivity.
Defined.

(** ** Scenarios *)

Example funded_extended_30_term_time :
  exists r, calculateFundedWeeklyHours "extended_30" false (Fin 51)
            = Ok (Fin r) /\ r == 30.
Proof. eexists. split; reflexivity. Qed.

Example funded_extended_30_stretched_51 :
  exists r, calculateFundedWeeklyHours "extended_30" true (Fin 51)
            = Ok (Fin r) /\ r == 2235 # 100.
Proof. eexists. split; reflexivity. Qed.

Example quote_fully_funded :
  exists q,
    generateQuotation SAMPLE_CHILDREN default_settings (quotation_for (Fin 1))
    = Ok (Some q) /\
    (Quote.weeklyBooked q === Fin 30)%js /\
    (Quote.fundedWeekly q === Fin 30)%js /\
    (Quote.chargeableHours q === Fin 0)%js /\
    (Quote.weeklyChargeableHours q === Fin 0)%js /\
    (Quote.weeklyMeals q === Fin (35 # 2))%js /\
    (Quote.weeklyConsumables q === Fin (15 # 2))%js /\
    (Quote.weeklyTotal q === Fin 25)%js /\
    (Quote.periodTotal q === Fin 100)%js.
Proof. eexists. split; [reflexivity|]. repeat split. Qed.

Example summary_empty_roster :
  exists s, summary [] = Ok s /\ Summary.averageUtilisation s = Fin 0.
Proof. eexists. split; reflexivity. Qed.

Example under_utilisation_ten_weeks_left :
  exists suggestions warning,
    optimisations ten_weeks_left SAMPLE_CHILDREN default_settings
    = Ok suggestions /\
    nth_error suggestions 0 = Some warning /\
    Suggestion.child warning = "Emma Thompson"%string /\
    figures warning = [Fin 756; Fin 1140; Fin 384; Fin 39].
Proof.
  eexists. eexists. split; [vm_compute; reflexivity|].
  split; [reflexivity|]. split; reflexivity.
Qed.

Example under_utilisation_after_term :
  (forall today, (after_term <= today)%Z -> getCurrentTermWeek today = 38%Z)
  /\
  exists suggestions warning,
    optimisations after_term SAMPLE_CHILDREN default_settings
    = Ok suggestions /\
    nth_error suggestions 0 = Some warning /\
    Suggestion.child warning = "Emma Thompson"%string /\
    figures warning = [Fin 456; Fin 1140; Fin 684; PInf].
Proof.
  split.
  - intros today H. apply getCurrentTermWeek_last.
    unfold after_term, termStart in *. lia.
  - eexists. eexists. split; [vm_compute; reflexivity|].
    split; [reflexivity|]. split; reflexivity.
Qed.

(* ================================================================== *)
(** * Further properties of the engine *)

(** ** Term weeks *)

(** X1: whatever the clock reads, the term-week estimate lies between 1 and
    38, so between 0 and 37 weeks remain. *)
Theorem getCurrentTermWeek_range (today : Z) :
  (1 <= getCurrentTermWeek today <= 38)%Z /\
  (0 <= 38 - getCurrentTermWeek today <= 37)%Z.
Proof. unfold getCurrentTermWeek. lia. Qed.

(** X2: the term-week estimate never goes back as the clock advances. *)
Theorem getCurrentTermWeek_mono (today later : Z) :
  (today <= later)%Z ->
  (getCurrentTermWeek today <= getCurrentTermWeek later)%Z.
Proof.
  intro H. unfold getCurrentTermWeek.
  assert ((today - termStart) / (7 * 24 * 60 * 60 * 1000)
          <= (later - termStart) / (7 * 24 * 60 * 60 * 1000))%Z.
  { apply Z.div_le_mono; lia. }
  lia.
Qed.

Lemma getCurrentTermWeek_mono_witness :
  (getCurrentTermWeek ten_weeks_left <= getCurrentTermWeek after_term)%Z.
Proof.
  apply (getCurrentTermWeek_mono ten_weeks_left after_term).
  unfold ten_weeks_left, after_term, termStart. lia.
Defined.

(** X3: week 1 lasts until seven days after the term start (and covers all
    the time before it), week [k] is the [k]-th run of seven days, and week
    38 never ends. *)
Theorem getCurrentTermWeek_windows (today k : Z) :
  (getCurrentTermWeek today = 1
   <-> today < termStart + 604800000)%Z /\
  ((1 < k < 38)%Z ->
   (getCurrentTermWeek today = k
    <-> termStart + (k - 1) * 604800000 <= today
        < termStart + k * 604800000)%Z) /\
  (getCurrentTermWeek today = 38
   <-> termStart + 37 * 604800000 <= today)%Z.
Proof.
  unfold getCurrentTermWeek.
  change (7 * 24 * 60 * 60 * 1000)%Z with 604800000%Z.
  pose proof (Z.div_mod (today - termStart) 604800000 ltac:(lia)) as Hdm.
  pose proof (Z.mod_pos_bound (today - termStart) 604800000 ltac:(lia)) as Hb.
  set (q := ((today - termStart) / 604800000)%Z) in *.
  set (r := ((today - termStart) mod 604800000)%Z) in *.
  repeat split; intros; lia.
Qed.

Lemma getCurrentTermWeek_windows_witness :
  (getCurrentTermWeek ten_weeks_left = 28
   <-> termStart + (28 - 1) * 604800000 <= ten_weeks_left
       < termStart + 28 * 604800000)%Z.
Proof.
  apply (proj1 (proj2 (getCurrentTermWeek_windows ten_weeks_left 28))).
  lia.
Defined.

(** ** Ages *)

(** X4: the age is the number of anniversaries of the birth date that the
    calendar has reached: the [n]-th anniversary is today or earlier exactly
    when [n] is at most the age. *)
Theorem calculateAge_anniversaries (today birthDate : LocalDate.t) (n : Z) :
  on_or_after today (anniversary n birthDate)
  <-> (n <= calculateAge today birthDate)%Z.
Proof.
  unfold on_or_after, anniversary, calculateAge. simpl.
  destruct (LocalDate.getMonth today - LocalDate.getMonth birthDate <? 0)%Z
    eqn:Em; simpl.
  - apply Z.ltb_lt in Em. lia.
  - apply Z.ltb_ge in Em.
    destruct (LocalDate.getMonth today - LocalDate.getMonth birthDate =? 0)%Z
      eqn:Ez; simpl.
    + apply Z.eqb_eq in Ez.
      destruct (LocalDate.getDate today <? LocalDate.getDate birthDate)%Z
        eqn:Ed; [apply Z.ltb_lt in Ed | apply Z.ltb_ge in Ed]; lia.
    + apply Z.eqb_neq in Ez. lia.
Qed.

(** X5: the age in months ignores the day of the month: it lies between
    twelve times the age in years and twelve more, and it is a whole number
    of years exactly in the month of the birthday. *)
Theorem calculateAgeInMonths_bounds (today birthDate : LocalDate.t) :
  (0 <= LocalDate.getMonth today <= 11)%Z ->
  (0 <= LocalDate.getMonth birthDate <= 11)%Z ->
  (12 * calculateAge today birthDate
   <= calculateAgeInMonths today birthDate
   <= 12 * calculateAge today birthDate + 12)%Z /\
  ((calculateAgeInMonths today birthDate) mod 12 = 0
   <-> LocalDate.getMonth today = LocalDate.getMonth birthDate)%Z.
Proof.
  intros Ht Hb. unfold calculateAge, calculateAgeInMonths.
  split.
  - destruct (LocalDate.getMonth today - LocalDate.getMonth birthDate <? 0)%Z
      eqn:Em; cbn [orb andb].
    + apply Z.ltb_lt in Em. lia.
    + apply Z.ltb_ge in Em.
      destruct (LocalDate.getMonth today - LocalDate.getMonth birthDate =? 0)%Z
        eqn:Ez; cbn [orb andb].
      * apply Z.eqb_eq in Ez.
        destruct (LocalDate.getDate today <? LocalDate.getDate birthDate)%Z;
          lia.
      * lia.
  - rewrite Z.add_comm, Z.mod_add by lia.
    split; intro H.
    + destruct (Z.eq_dec (LocalDate.getMonth today)
                  (LocalDate.getMonth birthDate)) as [|Hne]; [assumption|].
      exfalso.
      destruct (Z_lt_le_dec (LocalDate.getMonth today)
                  (LocalDate.getMonth birthDate)).
      * assert (Hm : ((LocalDate.getMonth today
                       - LocalDate.getMonth birthDate) mod 12
                      = LocalDate.getMonth today
                        - LocalDate.getMonth birthDate + 12)%Z).
        { symmetry. apply (Z.mod_unique _ _ (-1)); lia. }
        lia.
      * rewrite Z.mod_small in H by lia. lia.
    + rewrite H, Z.sub_diag. reflexivity.
Qed.

Lemma calculateAgeInMonths_bounds_witness :
  (12 * calculateAge (LocalDate.mk 2026 10 1) (LocalDate.mk 2022 2 15)
   <= calculateAgeInMonths (LocalDate.mk 2026 10 1) (LocalDate.mk 2022 2 15)
   <= 12 * calculateAge (LocalDate.mk 2026 10 1) (LocalDate.mk 2022 2 15) + 12)%Z.
Proof.
  apply (calculateAgeInMonths_bounds
           (LocalDate.mk 2026 10 1) (LocalDate.mk 2022 2 15)); simpl; lia.
Defined.

(** ** Weekly booked hours *)

Lemma le_trans (a b c : jsnum) :
  Js.le a b = true -> Js.le b c = true -> Js.le a c = true.
Proof.
  destruct a as [x| | |], b as [y| | |], c as [z| | |]; simpl;
    try discriminate; try reflexivity.
  intros H1 H2. apply Qle_bool_iff in H1, H2. apply Qle_bool_iff. lra.
Qed.

Lemma le_add_nonneg (a x : jsnum) :
  Js.le (Fin 0) a = true -> Js.le (Fin 0) x = true ->
  Js.le (Fin 0) (a + x)%js = true
  /\ Js.le a (a + x)%js = true
  /\ Js.le x (a + x)%js = true.
Proof.
  destruct a as [p| | |], x as [q| | |]; simpl;
    try discriminate; try (repeat split; reflexivity).
  intros Ha Hx. apply Qle_bool_iff in Ha, Hx.
  repeat split; apply Qle_bool_iff; lra.
Qed.

Lemma sum_nonneg (l : list jsnum) :
  Forall (fun h => Js.le (Fin 0) h = true) l ->
  forall a, Js.le (Fin 0) a = true ->
    let total := fold_left (fun sum hours => sum + hours)%js l a in
    Js.le (Fin 0) total = true /\
    Js.le a total = true /\
    forall h, In h l -> Js.le h total = true.
Proof.
  induction 1 as [|x l Hx _ IH]; intros a Ha; simpl.
  - split; [exact Ha|]. split; [|intros h []].
    destruct a; simpl in *; try discriminate; try reflexivity.
    apply Qle_bool_iff. lra.
  - destruct (le_add_nonneg a x Ha Hx) as (H0 & Hax & Hxx).
    destruct (IH (a + x)%js H0) as (Ht & Hle & Hin).
    split; [exact Ht|]. split; [now apply le_trans with (a + x)%js|].
    intros h [<-|Hh]; [now apply le_trans with (a + x)%js | now apply Hin].
Qed.

(** X7: when no day's hours are negative (or [NaN]), neither are the weekly
    booked hours, and no day's hours exceed them. *)
Theorem getWeeklyHours_nonneg (pattern : list (string * jsnum)) :
  Forall (fun day => Js.le (Fin 0) (snd day) = true) pattern ->
  Js.le (Fin 0) (getWeeklyHours pattern) = true /\
  forall day hours,
    In (day, hours) pattern -> Js.le hours (getWeeklyHours pattern) = true.
Proof.
  intro Hall. unfold getWeeklyHours.
  destruct (sum_nonneg (map snd pattern)) with (a := Fin 0)
    as (Ht & _ & Hin).
  { apply Forall_map. exact Hall. }
  { reflexivity. }
  split; [exact Ht|].
  intros day hours Hd. apply Hin.
  apply in_map_iff. now exists (day, hours).
Qed.

Lemma getWeeklyHours_nonneg_witness :
  Js.le (Fin 0) (getWeeklyHours (week 5 5 5 0 0)) = true /\
  forall day hours,
    In (day, hours) (week 5 5 5 0 0) ->
    Js.le hours (getWeeklyHours (week 5 5 5 0 0)) = true.
Proof.
  apply (getWeeklyHours_nonneg (week 5 5 5 0 0)).
  repeat apply Forall_cons; try apply Forall_nil; reflexivity.
Defined.

(** ** Funded weekly hours, further *)

Lemma round_to_cents_error (x : Q) :
  x - (1 # 200) < inject_Z (Qfloor (x * 100 + (1 # 2))) / 100
  /\ inject_Z (Qfloor (x * 100 + (1 # 2))) / 100 <= x + (1 # 200).
Proof.
  pose proof (Qfloor_le (x * 100 + (1 # 2))) as Hlo.
  pose proof (Qlt_floor (x * 100 + (1 # 2))) as Hhi.
  rewrite inject_Z_plus in Hhi. change (inject_Z 1) with 1 in Hhi.
  set (n := inject_Z (Qfloor (x * 100 + (1 # 2)))) in *.
  split.
  - apply Qlt_shift_div_l; [reflexivity | lra].
  - apply Qle_shift_div_r; [reflexivity | lra].
Qed.

Lemma inject_Z_pos (z : Z) : (0 < z)%Z -> 0 < inject_Z z.
Proof. intro H. change 0 with (inject_Z 0). now rewrite <- Zlt_Qlt. Qed.

(** X8: for every scheme of the registry and at least 38 operating weeks,
    stretching never raises the weekly funded hours: the stretched figure is
    at most the term-time one. *)
Theorem stretched_at_most_term_time
    (key : string) (s : FundingScheme.t) (W : Z) :
  In (key, s) FUNDING_SCHEMES ->
  (38 <= W)%Z ->
  exists stretched termTime : Q,
    calculateFundedWeeklyHours key true (Js.of_Z W) = Ok (Fin stretched) /\
    calculateFundedWeeklyHours key false (Js.of_Z W) = Ok (Fin termTime) /\
    stretched <= termTime.
Proof.
  intros Hin H38.
  destruct (catalogued_cases key s Hin) as (Hl & Hh & Hw).
  assert (HposW : 0 < inject_Z W) by (apply inject_Z_pos; lia).
  assert (Hle : 38 <= inject_Z W).
  { change 38 with (inject_Z 38). rewrite <- Zle_Qle. lia. }
  assert (Hgen : forall h, 0 <= h -> FundingScheme.hoursPerYear s = Fin h ->
    exists stretched termTime : Q,
      calculateFundedWeeklyHours key true (Js.of_Z W) = Ok (Fin stretched) /\
      calculateFundedWeeklyHours key false (Js.of_Z W) = Ok (Fin termTime) /\
      stretched <= termTime).
  { intros h Hh0 Hs. unfold calculateFundedWeeklyHours, Js.of_Z.
    rewrite Hl. simpl bind. rewrite Hs, Hw.
    rewrite !div_Fin_pos by (assumption || reflexivity).
    rewrite !round_to_cents_Fin.
    do 2 eexists. split; [reflexivity|]. split; [reflexivity|].
    apply round_to_cents_mono. apply Qdiv_antitone; [assumption | reflexivity | assumption]. }
  destruct Hh as [Hs|Hs]; eapply Hgen; try exact Hs; discriminate.
Qed.

Lemma stretched_at_most_term_time_witness :
  exists stretched termTime : Q,
    calculateFundedWeeklyHours "universal_15" true (Js.of_Z 51)
    = Ok (Fin stretched) /\
    calculateFundedWeeklyHours "universal_15" false (Js.of_Z 51)
    = Ok (Fin termTime) /\
    stretched <= termTime.
Proof.
  apply (stretched_at_most_term_time "universal_15" universal_15 51).
  - left. reflexivity.
  - lia.
Defined.

(** X9: for every scheme of the registry and 38 to 52 operating weeks, on
    which binary64 gives the same results, the stretched weekly funded
    hours are a whole number of hundredths, not negative, within half a
    hundredth of [hoursPerYear / operatingWeeks]. *)
Theorem stretched_funded_hours_accuracy
    (key : string) (s : FundingScheme.t) (W : Z) :
  In (key, s) FUNDING_SCHEMES ->
  (38 <= W <= 52)%Z ->
  exists (h : Q) (cents : Z),
    FundingScheme.hoursPerYear s = Fin h /\
    calculateFundedWeeklyHours key true (Js.of_Z W)
    = Ok (Fin (inject_Z cents / 100)) /\
    (0 <= cents)%Z /\
    h / inject_Z W - (1 # 200) < inject_Z cents / 100 /\
    inject_Z cents / 100 <= h / inject_Z W + (1 # 200).
Proof.
  intros Hin HW.
  destruct (catalogued_cases key s Hin) as (Hl & Hh & _).
  assert (HposW : 0 < inject_Z W) by (apply inject_Z_pos; lia).
  assert (Hgen : forall h, 0 <= h -> FundingScheme.hoursPerYear s = Fin h ->
    exists (h : Q) (cents : Z),
      FundingScheme.hoursPerYear s = Fin h /\
      calculateFundedWeeklyHours key true (Js.of_Z W)
      = Ok (Fin (inject_Z cents / 100)) /\
      (0 <= cents)%Z /\
      h / inject_Z W - (1 # 200) < inject_Z cents / 100 /\
      inject_Z cents / 100 <= h / inject_Z W + (1 # 200)).
  { intros h Hh0 Hs.
    exists h, (Qfloor (h / inject_Z W * 100 + (1 # 2))).
    split; [exact Hs|]. split.
    - unfold calculateFundedWeeklyHours, Js.of_Z.
      rewrite Hl. simpl bind. rewrite Hs.
      rewrite div_Fin_pos by assumption. apply f_equal, round_to_cents_Fin.
    - split; [|apply round_to_cents_error].
      assert (Hq : 0 <= h / inject_Z W) by (apply Qle_shift_div_l; lra).
      rewrite <- (Qfloor_Z 0). apply Qfloor_resp_le.
      change (inject_Z 0) with 0. lra. }
  destruct Hh as [Hs|Hs]; eapply Hgen; try exact Hs; discriminate.
Qed.

Lemma stretched_funded_hours_accuracy_witness :
  exists (h : Q) (cents : Z),
    FundingScheme.hoursPerYear extended_30 = Fin h /\
    calculateFundedWeeklyHours "extended_30" true (Js.of_Z 51)
    = Ok (Fin (inject_Z cents / 100)) /\
    (0 <= cents)%Z /\
    h / inject_Z 51 - (1 # 200) < inject_Z cents / 100 /\
    inject_Z cents / 100 <= h / inject_Z 51 + (1 # 200).
Proof.
  apply (stretched_funded_hours_accuracy "extended_30" extended_30 51).
  - right; right; left. reflexivity.
  - lia.
Defined.

(** X10: the operating weeks are not validated: for every scheme of the
    registry the stretched figure is [Infinity] at 0 operating weeks, a
    finite number at every other whole number of weeks, and [NaN] at
    [NaN]. *)
Theorem stretched_funded_hours_unvalidated
    (key : string) (s : FundingScheme.t) (W : Z) :
  In (key, s) FUNDING_SCHEMES ->
  (- 2 ^ 53 <= W <= 2 ^ 53)%Z ->
  (exists r,
      calculateFundedWeeklyHours key true (Js.of_Z W) = Ok r /\
      (W = 0%Z -> r = PInf) /\
      (W <> 0%Z -> finite r)) /\
  calculateFundedWeeklyHours key true NaN = Ok NaN.
Proof.
  intros Hin _.
  destruct (catalogued_cases key s Hin) as (Hl & Hh & _).
  unfold calculateFundedWeeklyHours. rewrite Hl. simpl bind.
  split.
  - eexists. split; [reflexivity|]. split.
    + intros ->. destruct Hh as [-> | ->]; reflexivity.
    + intro Hnz.
      assert (Hq : Qeq_bool (inject_Z W) 0 = false).
      { apply Qeq_bool_false. intro H. apply Hnz.
        now apply (proj1 (inject_Z_injective W 0)). }
      unfold Js.of_Z.
      destruct Hh as [-> | ->]; simpl; rewrite Hq; exact I.
  - destruct Hh as [-> | ->]; reflexivity.
Qed.

Lemma stretched_funded_hours_unvalidated_witness :
  (exists r,
      calculateFundedWeeklyHours "eligible_2yr" true (Js.of_Z 0) = Ok r /\
      (0%Z = 0%Z -> r = PInf) /\
      (0%Z <> 0%Z -> finite r)) /\
  calculateFundedWeeklyHours "eligible_2yr" true NaN = Ok NaN.
Proof.
  apply (stretched_funded_hours_unvalidated "eligible_2yr" eligible_2yr 0).
  - right; left. reflexivity.
  - lia.
Defined.

(** ** The roster: hours, deletion, addition *)

Lemma strict_eq_with_hoursUsed (c : Child.t) (h id : jsnum) :
  Js.strict_eq (Child.id (Child.with_hoursUsed c h)) id
  = Js.strict_eq (Child.id c) id.
Proof. reflexivity. Qed.

(** X11: recording the same hours twice is recording them once. *)
Theorem updateChildHours_idempotent
    (id hours : jsnum) (children : list Child.t) :
  updateChildHours id hours (updateChildHours id hours children)
  = updateChildHours id hours children.
Proof.
  unfold updateChildHours. rewrite map_map. apply map_ext.
  intro c. destruct (Js.strict_eq (Child.id c) id) eqn:E.
  - rewrite strict_eq_with_hoursUsed, E. reflexivity.
  - now rewrite E.
Qed.

(** X12: recording hours keeps the roster's shape: the same number of
    children in the same order, with the same ids, names, entitlements,
    patterns and stretch options; with no child of the given id the roster
    is unchanged. *)
Theorem updateChildHours_frame
    (id hours : jsnum) (children : list Child.t) :
  List.length (updateChildHours id hours children) = List.length children /\
  map Child.id (updateChildHours id hours children) = map Child.id children /\
  map Child.name (updateChildHours id hours children)
  = map Child.name children /\
  map Child.entitlement (updateChildHours id hours children)
  = map Child.entitlement children /\
  map Child.weeklyPattern (updateChildHours id hours children)
  = map Child.weeklyPattern children /\
  map Child.stretchedOption (updateChildHours id hours children)
  = map Child.stretchedOption children /\
  ((forall c, In c children -> Js.strict_eq (Child.id c) id = false) ->
   updateChildHours id hours children = children).
Proof.
  unfold updateChildHours.
  split; [apply length_map|].
  repeat split;
    try (rewrite map_map; apply map_ext; intro c;
         destruct (Js.strict_eq (Child.id c) id); reflexivity).
  intro Hno. rewrite <- (map_id children) at 2.
  apply map_ext_in. intros c Hin. now rewrite (Hno c Hin).
Qed.

Lemma updateChildHours_frame_witness :
  updateChildHours (Fin 7) (Fin 40) SAMPLE_CHILDREN = SAMPLE_CHILDREN.
Proof.
  apply (updateChildHours_frame (Fin 7) (Fin 40) SAMPLE_CHILDREN).
  intros c [<-|[<-|[<-|[]]]]; reflexivity.
Defined.

Lemma summary_loop_update (id hours : jsnum) (children : list Child.t) :
  forall f u r u2 r2,
    match forEach summary_step children (f, u, r) with
    | Ok (f', _, _) =>
        exists u' r',
          forEach summary_step (updateChildHours id hours children)
            (f, u2, r2)
          = Ok (f', u', r')
    | Throw e =>
        forEach summary_step (updateChildHours id hours children) (f, u2, r2)
        = Throw e
    end.
Proof.
  induction children as [|c cs IH]; intros f u r u2 r2.
  - simpl. now exists u2, r2.
  - unfold updateChildHours. cbn [map forEach].
    fold (updateChildHours id hours cs).
    set (c' := if Js.strict_eq (Child.id c) id
               then Child.with_hoursUsed c (Js.max (Fin 0) hours) else c).
    assert (Hent : Child.entitlement c' = Child.entitlement c).
    { subst c'. destruct (Js.strict_eq (Child.id c) id); reflexivity. }
    destruct (get_hoursPerYear (lookup_scheme (Child.entitlement c)))
      as [hpy|e] eqn:E.
    + replace (summary_step (f, u, r) c)
        with (Ok (f + hpy, u + Child.hoursUsed c,
                  r + (hpy - Child.hoursUsed c))%js)
        by (unfold summary_step; now rewrite E).
      replace (summary_step (f, u2, r2) c')
        with (Ok (f + hpy, u2 + Child.hoursUsed c',
                  r2 + (hpy - Child.hoursUsed c'))%js)
        by (unfold summary_step; now rewrite Hent, E).
      cbn [bind]. apply IH.
    + replace (summary_step (f, u, r) c) with (@Throw totals e)
        by (unfold summary_step; now rewrite E).
      replace (summary_step (f, u2, r2) c') with (@Throw totals e)
        by (unfold summary_step; now rewrite Hent, E).
      reflexivity.
Qed.

(** X13: recording hours changes neither the number of children nor the
    total funded hours of the summary, and a summary that could be computed
    before can be computed after. *)
Theorem summary_after_updateChildHours
    (id hours : jsnum) (children : list Child.t) (s : Summary.t) :
  summary children = Ok s ->
  exists s',
    summary (updateChildHours id hours children) = Ok s' /\
    Summary.totalChildren s' = Summary.totalChildren s /\
    Summary.totalFundedHours s' = Summary.totalFundedHours s.
Proof.
  unfold summary. intro Hs.
  pose proof (summary_loop_update id hours children
                (Fin 0) (Fin 0) (Fin 0) (Fin 0) (Fin 0)) as Hl.
  destruct (forEach summary_step children (Fin 0, Fin 0, Fin 0))
    as [[[f u] r]|e]; [|discriminate].
  destruct Hl as (u' & r' & Hrun). rewrite Hrun.
  simpl in Hs. inversion Hs; subst s; clear Hs. simpl.
  eexists. split; [reflexivity|]. simpl.
  split; [|reflexivity].
  unfold updateChildHours. apply length_map.
Qed.

Lemma summary_after_updateChildHours_witness :
  exists s',
    summary (updateChildHours (Fin 2) (Fin 600) SAMPLE_CHILDREN) = Ok s' /\
    Summary.totalChildren s' = 3%nat /\
    Summary.totalFundedHours s' = Fin 2280.
Proof.
  apply (summary_after_updateChildHours (Fin 2) (Fin 600) SAMPLE_CHILDREN
           (Summary.mk 3 (Fin 2280) (Fin 732) (Fin 1548) (Fin 32))).
  reflexivity.
Defined.

Lemma find_map_same {A} (p : A -> bool) (f : A -> A) (l : list A) :
  (forall a, p (f a) = p a) ->
  find p (map f l) = option_map f (find p l).
Proof.
  intro Hp. induction l as [|a l IH]; simpl; [reflexivity|].
  rewrite Hp. destruct (p a); [reflexivity | exact IH].
Qed.

(** X14: the figures of a quote do not depend on the hours used: after
    recording hours the same request gives a quote with the same booked,
    funded and chargeable hours and the same costs. *)
Theorem quote_after_updateChildHours
    (id hours : jsnum) (children : list Child.t)
    (providerSettings : ProviderSettings.t) (quotation : Quotation.t)
    (q : Quote.t) :
  generateQuotation children providerSettings quotation = Ok (Some q) ->
  exists q',
    generateQuotation (updateChildHours id hours children)
      providerSettings quotation
    = Ok (Some q') /\
    Child.id (Quote.child q') = Child.id (Quote.child q) /\
    Quote.weeklyBooked q' = Quote.weeklyBooked q /\
    Quote.fundedWeekly q' = Quote.fundedWeekly q /\
    Quote.chargeableHours q' = Quote.chargeableHours q /\
    Quote.weeklySessionCost q' = Quote.weeklySessionCost q /\
    Quote.weeklyFundedValue q' = Quote.weeklyFundedValue q /\
    Quote.weeklyChargeableHours q' = Quote.weeklyChargeableHours q /\
    Quote.weeklyMeals q' = Quote.weeklyMeals q /\
    Quote.weeklyConsumables q' = Quote.weeklyConsumables q /\
    Quote.weeklyTotal q' = Quote.weeklyTotal q /\
    Quote.periodTotal q' = Quote.periodTotal q /\
    Quote.weeks q' = Quote.weeks q.
Proof.
  unfold generateQuotation, updateChildHours.
  destruct (Quotation.childId quotation) as [childId|]; [|discriminate].
  destruct (negb (Js.truthy childId)); [discriminate|].
  rewrite find_map_same
    by (intro c; destruct (Js.strict_eq (Child.id c) id); reflexivity).
  destruct (find _ children) as [c|]; [|discriminate]. cbn [option_map].
  set (c' := if Js.strict_eq (Child.id c) id
             then Child.with_hoursUsed c (Js.max (Fin 0) hours) else c).
  cbv beta iota.
  assert (Hc : Child.id c' = Child.id c
               /\ Child.entitlement c' = Child.entitlement c
               /\ Child.weeklyPattern c' = Child.weeklyPattern c
               /\ Child.stretchedOption c' = Child.stretchedOption c).
  { subst c'. destruct (Js.strict_eq (Child.id c) id); repeat split. }
  destruct Hc as (Hi & He & Hp & Hst). rewrite He, Hp, Hst.
  destruct (calculateFundedWeeklyHours _ _ _) as [fw|e]; simpl;
    [|discriminate].
  intro H. inversion H; subst q; clear H.
  eexists. split; [reflexivity|]. simpl. repeat split. exact Hi.
Qed.

Lemma quote_after_updateChildHours_witness :
  exists q',
    generateQuotation (updateChildHours (Fin 2) (Fin 600) SAMPLE_CHILDREN)
      default_settings sample_quotation
    = Ok (Some q') /\
    Quote.weeklyBooked q' = Fin 15.
Proof.
  destruct quote_sample_generated as (q & Hq & Hb & _).
  destruct (quote_after_updateChildHours (Fin 2) (Fin 600) SAMPLE_CHILDREN
              default_settings sample_quotation q Hq)
    as (q' & Hq' & _ & Hb' & _).
  exists q'. split; [exact Hq'|]. now rewrite Hb'.
Defined.

(** X15: deleting removes exactly the children with the given id and keeps
    the others; with no child of that id the roster is unchanged, and
    deleting twice is deleting once. *)
Theorem handleDeleteChild_spec (id : jsnum) (children : list Child.t) :
  (forall c, In c (handleDeleteChild id children)
             <-> In c children /\ Js.strict_eq (Child.id c) id = false) /\
  ((forall c, In c children -> Js.strict_eq (Child.id c) id = false) ->
   handleDeleteChild id children = children) /\
  handleDeleteChild id (handleDeleteChild id children)
  = handleDeleteChild id children /\
  (List.length (handleDeleteChild id children) <= List.length children)%nat.
Proof.
  unfold handleDeleteChild. split; [|split; [|split]].
  - intro c. rewrite filter_In, negb_true_iff. reflexivity.
  - intro Hno. induction children as [|c cs IH]; simpl; [reflexivity|].
    rewrite (Hno c (or_introl eq_refl)). simpl. f_equal.
    apply IH. intros c' Hin. apply Hno. now right.
  - induction children as [|c cs IH]; simpl; [reflexivity|].
    destruct (Js.strict_eq (Child.id c) id) eqn:E; simpl; [exact IH|].
    rewrite E. simpl. now f_equal.
  - apply filter_length_le.
Qed.

Lemma handleDeleteChild_spec_witness :
  handleDeleteChild (Fin 7) SAMPLE_CHILDREN = SAMPLE_CHILDREN.
Proof.
  apply (proj1 (proj2 (handleDeleteChild_spec (Fin 7) SAMPLE_CHILDREN))).
  intros c [<-|[<-|[<-|[]]]]; reflexivity.
Defined.

(** X16: once a child is deleted, a quotation request for its id gives
    [null]: no error and no quote for somebody else. *)
Theorem quote_after_handleDeleteChild
    (id : jsnum) (children : list Child.t)
    (providerSettings : ProviderSettings.t) (quotation : Quotation.t) :
  Quotation.childId quotation = Some id ->
  generateQuotation (handleDeleteChild id children) providerSettings quotation
  = Ok None.
Proof.
  intro Hid. unfold generateQuotation. rewrite Hid.
  destruct (negb (Js.truthy id)); [reflexivity|].
  destruct (find _ (handleDeleteChild id children)) as [c|] eqn:Hf;
    [|reflexivity].
  apply find_some in Hf. destruct Hf as [Hin Heq].
  unfold handleDeleteChild in Hin. apply filter_In in Hin.
  destruct Hin as [_ Hne]. rewrite Heq in Hne. discriminate.
Qed.

Lemma quote_after_handleDeleteChild_witness :
  generateQuotation (handleDeleteChild (Fin 2) SAMPLE_CHILDREN)
    default_settings sample_quotation
  = Ok None.
Proof.
  apply (quote_after_handleDeleteChild (Fin 2) SAMPLE_CHILDREN
           default_settings sample_quotation).
  reflexivity.
Defined.

Lemma forEach_app {S A} (body : S -> A -> result S) (xs ys : list A) (s : S) :
  forEach body (xs ++ ys) s
  = (let* s' := forEach body xs s in forEach body ys s').
Proof.
  revert s. induction xs as [|x xs IH]; intro s; simpl; [reflexivity|].
  destruct (body s x) as [s'|e]; simpl; [apply IH | reflexivity].
Qed.

(** X17: adding a child never touches the children already on the roster:
    they stay, in order, in front of at most one new child; and with an
    empty name or date of birth nothing changes at all. *)
Theorem handleAddChild_keeps_roster (now : Z) (st : AddChild.state) :
  (exists added,
      AddChild.children (handleAddChild now st)
      = AddChild.children st ++ added /\
      (List.length added <= 1)%nat /\
      forall c, In c added -> Child.id c = Js.of_Z now) /\
  (NewChild.name (AddChild.newChild st) = EmptyString
   \/ NewChild.dob (AddChild.newChild st) = EmptyString ->
   handleAddChild now st = st).
Proof.
  unfold handleAddChild. split.
  - destruct (string_falsy _ || string_falsy _).
    + exists []. rewrite app_nil_r. split; [reflexivity|].
      split; [simpl; lia | intros c []].
    + eexists. split; [reflexivity|]. split; [simpl; lia|].
      intros c [<-|[]]. reflexivity.
  - intros [H|H]; rewrite H; simpl; [reflexivity|].
    now rewrite orb_true_r.
Qed.

Lemma handleAddChild_keeps_roster_witness :
  handleAddChild sample_now (AddChild.mk SAMPLE_CHILDREN blank_child true)
  = AddChild.mk SAMPLE_CHILDREN blank_child true.
Proof.
  apply (proj2 (handleAddChild_keeps_roster sample_now
                  (AddChild.mk SAMPLE_CHILDREN blank_child true))).
  left. reflexivity.
Defined.

(** X18: submitting the form a second time adds nothing: a successful
    submission resets the draft, whose empty name stops the next one. *)
Theorem handleAddChild_twice (now later : Z) (st : AddChild.state) :
  handleAddChild later (handleAddChild now st) = handleAddChild now st.
Proof.
  destruct (string_falsy (NewChild.name (AddChild.newChild st))
            || string_falsy (NewChild.dob (AddChild.newChild st))) eqn:E.
  - replace (handleAddChild now st) with st
      by (unfold handleAddChild; now rewrite E).
    unfold handleAddChild. now rewrite E.
  - replace (handleAddChild now st)
      with (AddChild.mk
              (AddChild.children st
               ++ [with_id (AddChild.newChild st) (Js.of_Z now)])
              blank_child false)
      by (unfold handleAddChild; now rewrite E).
    reflexivity.
Qed.

(** X19: adding a child with a filled-in form and a catalogued entitlement
    raises the summary's count by one, its funded hours by the scheme's
    annual hours and its used hours by the draft's. *)
Theorem summary_after_handleAddChild
    (now : Z) (st : AddChild.state) (scheme : FundingScheme.t)
    (s : Summary.t) :
  NewChild.name (AddChild.newChild st) <> EmptyString ->
  NewChild.dob (AddChild.newChild st) <> EmptyString ->
  In (NewChild.entitlement (AddChild.newChild st), scheme) FUNDING_SCHEMES ->
  summary (AddChild.children st) = Ok s ->
  exists s',
    summary (AddChild.children (handleAddChild now st)) = Ok s' /\
    Summary.totalChildren s' = S (Summary.totalChildren s) /\
    Summary.totalFundedHours s'
    = (Summary.totalFundedHours s + FundingScheme.hoursPerYear scheme)%js /\
    Summary.totalUsedHours s'
    = (Summary.totalUsedHours s
       + NewChild.hoursUsed (AddChild.newChild st))%js /\
    Summary.totalRemainingHours s'
    = (Summary.totalRemainingHours s
       + (FundingScheme.hoursPerYear scheme
          - NewChild.hoursUsed (AddChild.newChild st)))%js.
Proof.
  intros Hname Hdob Hin Hs.
  destruct (catalogued_cases _ scheme Hin) as (Hl & _ & _).
  unfold handleAddChild.
  destruct (NewChild.name (AddChild.newChild st)) as [|a n] eqn:En;
    [congruence|].
  destruct (NewChild.dob (AddChild.newChild st)) as [|b d] eqn:Ed;
    [congruence|].
  cbn [string_falsy orb AddChild.children].
  unfold summary in *. rewrite forEach_app.
  destruct (forEach summary_step (AddChild.children st) (Fin 0, Fin 0, Fin 0))
    as [[[f u] r]|e]; [|discriminate].
  cbn [bind] in Hs. inversion Hs; subst s; clear Hs.
  cbn [bind forEach]. unfold summary_step, with_id.
  cbn [Child.entitlement Child.hoursUsed]. rewrite Hl. cbn [bind get_hoursPerYear].
  eexists. split; [reflexivity|].
  cbn [Summary.totalChildren Summary.totalFundedHours Summary.totalUsedHours
       Summary.totalRemainingHours].
  split; [|repeat split].
  rewrite length_app. simpl. lia.
Qed.

Lemma summary_after_handleAddChild_witness :
  exists s',
    summary (AddChild.children (handleAddChild sample_now sample_form))
    = Ok s' /\
    Summary.totalChildren s' = 4%nat /\
    Summary.totalFundedHours s' = (Fin 2280 + Fin 570)%js.
Proof.
  destruct (summary_after_handleAddChild sample_now sample_form universal_15
              (Summary.mk 3 (Fin 2280) (Fin 732) (Fin 1548) (Fin 32)))
    as (s' & Hs & Hn & Hf & _).
  - discriminate.
  - discriminate.
  - left. reflexivity.
  - reflexivity.
  - exists s'. split; [exact Hs|]. split; [exact Hn | exact Hf].
Defined.

Lemma find_app_last {A} (p : A -> bool) (l : list A) (x : A) :
  (forall a, In a l -> p a = false) -> p x = true ->
  find p (l ++ [x]) = Some x.
Proof.
  intros Hl Hx. induction l as [|a l IH]; simpl.
  - now rewrite Hx.
  - rewrite (Hl a (or_introl eq_refl)). apply IH.
    intros a' Hin. apply Hl. now right.
Qed.

(** X20: a child added with a filled-in form, a catalogued entitlement and
    an id that is not zero and not yet on the roster can be quoted at once:
    a request for the new id gives a quote for the new child. *)
Theorem quote_after_handleAddChild
    (now : Z) (st : AddChild.state)
    (providerSettings : ProviderSettings.t) (quotation : Quotation.t) :
  NewChild.name (AddChild.newChild st) <> EmptyString ->
  NewChild.dob (AddChild.newChild st) <> EmptyString ->
  is_catalogued (NewChild.entitlement (AddChild.newChild st)) ->
  now <> 0%Z ->
  (forall c, In c (AddChild.children st) ->
             Js.strict_eq (Child.id c) (Js.of_Z now) = false) ->
  Quotation.childId quotation = Some (Js.of_Z now) ->
  exists q,
    generateQuotation (AddChild.children (handleAddChild now st))
      providerSettings quotation
    = Ok (Some q) /\
    Quote.child q = with_id (AddChild.newChild st) (Js.of_Z now).
Proof.
  intros Hname Hdob Hcat Hnow Hfresh Hid.
  apply (generateQuotation_found _ _ _ (Js.of_Z now)); try assumption.
  - unfold Js.of_Z, Js.truthy. rewrite Qeq_bool_false; [reflexivity|].
    intro H. apply Hnow.
    apply (proj1 (inject_Z_injective now 0)). exact H.
  - unfold handleAddChild.
    destruct (NewChild.name (AddChild.newChild st)); [congruence|].
    destruct (NewChild.dob (AddChild.newChild st)); [congruence|].
    cbn [string_falsy orb AddChild.children].
    apply find_app_last; [exact Hfresh|].
    unfold with_id, Js.of_Z, Js.strict_eq. cbn [Child.id].
    apply Qeq_bool_iff. reflexivity.
Qed.

Lemma quote_after_handleAddChild_witness :
  exists q,
    generateQuotation
      (AddChild.children (handleAddChild sample_now sample_form))
      default_settings (quotation_for (Js.of_Z sample_now))
    = Ok (Some q) /\
    Quote.child q = with_id sample_draft (Js.of_Z sample_now).
Proof.
  apply (quote_after_handleAddChild sample_now sample_form default_settings
           (quotation_for (Js.of_Z sample_now))).
  - discriminate.
  - discriminate.
  - unfold is_catalogued. simpl. auto.
  - discriminate.
  - intros c [<-|[<-|[<-|[]]]]; reflexivity.
  - reflexivity.
Defined.

(** ** Chart data *)

(** X21: for a roster of catalogued entitlements the bar chart has one row
    per child, in roster order, carrying the first word of the child's name,
    its hours used, the scheme's annual hours and, as remaining, the annual
    hours less the hours used, not clamped. *)
Theorem usageChartData_rows (children : list Child.t) :
  Forall (fun c => is_catalogued (Child.entitlement c)) children ->
  exists rows,
    usageChartData children = Ok rows /\
    Forall2
      (fun c row =>
         ChartRow.name row = first_segment (Child.name c) /\
         ChartRow.used row = Child.hoursUsed c /\
         exists scheme,
           In (Child.entitlement c, scheme) FUNDING_SCHEMES /\
           ChartRow.total row = Some (FundingScheme.hoursPerYear scheme) /\
           ChartRow.remaining row
           = (FundingScheme.hoursPerYear scheme - Child.hoursUsed c)%js)
      children rows.
Proof.
  unfold usageChartData.
  induction 1 as [|c cs Hcat _ (rows & Hrows & Hall)].
  - exists []. split; [reflexivity | constructor].
  - destruct (is_catalogued_In _ Hcat) as [scheme Hin].
    destruct (catalogued_cases _ scheme Hin) as (Hl & Hh & _).
    cbn [map_result]. rewrite Hl, Hrows. cbn [bind read_hoursPerYear].
    eexists. split; [reflexivity|].
    constructor; [|exact Hall].
    cbn [ChartRow.name ChartRow.used ChartRow.remaining ChartRow.total].
    split; [reflexivity|]. split; [reflexivity|].
    exists scheme. split; [exact Hin|]. split; reflexivity.
Qed.

Lemma usageChartData_rows_witness :
  exists rows,
    usageChartData SAMPLE_CHILDREN = Ok rows /\
    map ChartRow.name rows = ["Emma"; "Oliver"; "Sophia"]%string.
Proof.
  destruct (usageChartData_rows SAMPLE_CHILDREN) as (rows & Hrows & _).
  - repeat apply Forall_cons; try apply Forall_nil;
      unfold is_catalogued; simpl; auto 6.
  - exists rows. split; [exact Hrows|].
    vm_compute in Hrows. inversion Hrows. reflexivity.
Defined.

Lemma get_read_hoursPerYear (r : scheme_ref) :
  get_hoursPerYear r
  = (let* v := read_hoursPerYear r in Ok (to_number v)).
Proof. destruct r; reflexivity. Qed.

Lemma chart_summary_loop (children : list Child.t) :
  forall f u r,
    match usageChartData children with
    | Ok rows =>
        exists f',
          forEach summary_step children (f, u, r)
          = Ok (f',
                fold_left Js.add (map ChartRow.used rows) u,
                fold_left Js.add (map ChartRow.remaining rows) r)
    | Throw e => forEach summary_step children (f, u, r) = Throw e
    end.
Proof.
  unfold usageChartData.
  induction children as [|c cs IH]; intros f u r.
  - simpl. now exists f.
  - cbn [map_result forEach].
    destruct (read_hoursPerYear (lookup_scheme (Child.entitlement c)))
      as [v|e] eqn:E.
    + replace (summary_step (f, u, r) c)
        with (Ok (f + to_number v, u + Child.hoursUsed c,
                  r + (to_number v - Child.hoursUsed c))%js)
        by (unfold summary_step; now rewrite get_read_hoursPerYear, E).
      cbn [bind].
      specialize (IH (f + to_number v)%js (u + Child.hoursUsed c)%js
                    (r + (to_number v - Child.hoursUsed c))%js).
      destruct (map_result _ cs) as [rows|e]; cbn [bind]; exact IH.
    + replace (summary_step (f, u, r) c) with (@Throw totals e)
        by (unfold summary_step; now rewrite get_read_hoursPerYear, E).
      reflexivity.
Qed.

(** X22: the pie chart agrees with the bar chart: whenever the chart rows
    can be computed so can the summary, and its used and remaining hours
    are the sums, in roster order, of the rows' used and remaining hours. *)
Theorem summary_sums_chart_rows
    (children : list Child.t) (rows : list ChartRow.t) :
  usageChartData children = Ok rows ->
  exists s,
    summary children = Ok s /\
    Summary.totalUsedHours s
    = fold_left Js.add (map ChartRow.used rows) (Fin 0) /\
    Summary.totalRemainingHours s
    = fold_left Js.add (map ChartRow.remaining rows) (Fin 0) /\
    Summary.totalChildren s = List.length rows.
Proof.
  intro Hrows.
  pose proof (chart_summary_loop children (Fin 0) (Fin 0) (Fin 0)) as Hl.
  rewrite Hrows in Hl. destruct Hl as [f' Hrun].
  unfold summary. rewrite Hrun. cbn [bind].
  eexists. split; [reflexivity|].
  cbn [Summary.totalUsedHours Summary.totalRemainingHours
       Summary.totalChildren].
  split; [reflexivity|]. split; [reflexivity|].
  clear Hrun. revert rows Hrows. unfold usageChartData.
  induction children as [|c cs IH]; intros rows Hrows.
  - inversion Hrows. reflexivity.
  - cbn [map_result] in Hrows.
    destruct (read_hoursPerYear _) as [v|e]; [|discriminate].
    cbn [bind] in Hrows.
    destruct (map_result _ cs) as [rows'|e]; [|discriminate].
    inversion Hrows. simpl. f_equal. now apply IH.
Qed.

Lemma summary_sums_chart_rows_witness :
  exists rows s,
    usageChartData SAMPLE_CHILDREN = Ok rows /\
    summary SAMPLE_CHILDREN = Ok s /\
    Summary.totalRemainingHours s
    = fold_left Js.add (map ChartRow.remaining rows) (Fin 0).
Proof.
  destruct (usageChartData SAMPLE_CHILDREN) as [rows|e] eqn:Hrows;
    [|vm_compute in Hrows; discriminate Hrows].
  destruct (summary_sums_chart_rows SAMPLE_CHILDREN rows Hrows)
    as (s & Hs & _ & Hr & _).
  exists rows, s. split; [reflexivity|]. split; [exact Hs | exact Hr].
Defined.

(** X23: the chart label is the part of the name before its first space: it
    holds no space, and the name is the label followed by nothing or by a
    space and more. *)
Theorem first_segment_spec (s : string) :
  (forall c, In c (list_ascii_of_string (first_segment s)) -> c <> " "%char)
  /\
  exists rest,
    s = (first_segment s ++ rest)%string /\
    (rest = EmptyString \/ exists more, rest = String " " more).
Proof.
  induction s as [|a s [IHno (rest & IHeq & IHrest)]]; simpl.
  - split; [intros c []|]. exists EmptyString. split; [reflexivity | now left].
  - destruct (Ascii.eqb_spec a " "%char) as [->|Hne]; simpl.
    + split; [intros c []|]. exists (String " " s).
      split; [reflexivity | right; now exists s].
    + split.
      * intros c [<-|Hin]; [exact Hne | now apply IHno].
      * exists rest. split; [now rewrite <- IHeq | exact IHrest].
Qed.

(** ** Usage bars *)

Lemma Qfloor_ge (n : Z) (x : Q) : (n <= Qfloor x)%Z <-> inject_Z n <= x.
Proof.
  split; intro H.
  - apply Qle_trans with (inject_Z (Qfloor x)); [|apply Qfloor_le].
    now rewrite <- Zle_Qle.
  - rewrite <- (Qfloor_Z n). now apply Qfloor_resp_le.
Qed.

(** X24: for a catalogued entitlement and finite hours used that are not
    negative, the usage percentage is a whole number that is not negative,
    and the bar's width is that percentage capped at 100. *)
Theorem usageBarWidth_capped (child : Child.t) :
  is_catalogued (Child.entitlement child) ->
  finite_nonneg (Child.hoursUsed child) ->
  exists percent : Z,
    usagePercent child = Ok (Js.of_Z percent) /\
    (0 <= percent)%Z /\
    usageBarWidth (Js.of_Z percent) = Js.of_Z (Z.min 100 percent).
Proof.
  intros Hcat Hused.
  destruct (is_catalogued_In _ Hcat) as [scheme Hin].
  destruct (catalogued_cases _ scheme Hin) as (Hl & Hh & _).
  destruct (Child.hoursUsed child) as [u| | |] eqn:Hu;
    simpl in Hused; try contradiction.
  assert (Hgen : forall h, 0 < h -> FundingScheme.hoursPerYear scheme = Fin h ->
    exists percent : Z,
      usagePercent child = Ok (Js.of_Z percent) /\
      (0 <= percent)%Z /\
      usageBarWidth (Js.of_Z percent) = Js.of_Z (Z.min 100 percent)).
  { intros h Hpos Hs.
    exists (Qfloor (u / h * 100 + (1 # 2))). split; [|split].
    - unfold usagePercent. rewrite Hl. cbn [bind get_hoursPerYear].
      rewrite Hs, Hu, div_Fin_pos by assumption. reflexivity.
    - apply Qfloor_ge. change (inject_Z 0) with 0.
      assert (0 <= u / h) by (apply Qle_shift_div_l; lra). lra.
    - set (p := Qfloor (u / h * 100 + (1 # 2))).
      unfold usageBarWidth, Js.of_Z, Js.min, Js.lt.
      destruct (Qltb (inject_Z p) 100) eqn:E.
      + apply Qltb_lt in E. change 100 with (inject_Z 100) in E.
        rewrite <- Zlt_Qlt in E. now rewrite Z.min_r by lia.
      + apply Qltb_ge in E. change 100 with (inject_Z 100) in E.
        rewrite <- Zle_Qle in E. now rewrite Z.min_l by lia. }
  destruct Hh as [Hs|Hs]; eapply Hgen; try exact Hs; reflexivity.
Qed.

Lemma usageBarWidth_capped_witness :
  exists percent : Z,
    usagePercent (Child.mk (Fin 2) "Oliver Smith" "2023-06-20" "eligible_2yr"
                    (week 5 5 5 0 0) (Fin 600) true)
    = Ok (Js.of_Z percent) /\
    (0 <= percent)%Z /\
    usageBarWidth (Js.of_Z percent) = Js.of_Z (Z.min 100 percent).
Proof.
  apply (usageBarWidth_capped
           (Child.mk (Fin 2) "Oliver Smith" "2023-06-20" "eligible_2yr"
              (week 5 5 5 0 0) (Fin 600) true)).
  - unfold is_catalogued. simpl. auto.
  - simpl. discriminate.
Defined.

(** X25: the usage bar never gets cooler as the hours used grow: for two
    children on the same catalogued scheme, the one with more hours used
    has at least the usage percentage of the other, is red if the other is
    red, and the other is green if it is green. *)
Theorem usageBarColor_monotone
    (less more : Child.t) (scheme : FundingScheme.t) (u1 u2 : Q) :
  In (Child.entitlement less, scheme) FUNDING_SCHEMES ->
  Child.entitlement more = Child.entitlement less ->
  Child.hoursUsed less = Fin u1 ->
  Child.hoursUsed more = Fin u2 ->
  u1 <= u2 ->
  exists p1 p2,
    usagePercent less = Ok p1 /\
    usagePercent more = Ok p2 /\
    Js.le p1 p2 = true /\
    (usageBarColor p1 = "#EF4444"%string ->
     usageBarColor p2 = "#EF4444"%string) /\
    (usageBarColor p2 = "#10B981"%string ->
     usageBarColor p1 = "#10B981"%string).
Proof.
  intros Hin Hent Hu1 Hu2 Hle.
  destruct (catalogued_cases _ scheme Hin) as (Hl & Hh & _).
  assert (Hgen : forall h, 0 < h -> FundingScheme.hoursPerYear scheme = Fin h ->
    exists p1 p2,
      usagePercent less = Ok p1 /\
      usagePercent more = Ok p2 /\
      Js.le p1 p2 = true /\
      (usageBarColor p1 = "#EF4444"%string ->
       usageBarColor p2 = "#EF4444"%string) /\
      (usageBarColor p2 = "#10B981"%string ->
       usageBarColor p1 = "#10B981"%string)).
  { intros h Hpos Hs.
    set (z1 := Qfloor (u1 / h * 100 + (1 # 2))).
    set (z2 := Qfloor (u2 / h * 100 + (1 # 2))).
    assert (Hz : (z1 <= z2)%Z).
    { apply Qfloor_resp_le.
      assert (u1 / h <= u2 / h).
      { unfold Qdiv. apply Qmult_le_compat_r; [exact Hle|].
        apply Qlt_le_weak, Qinv_lt_0_compat, Hpos. }
      lra. }
    exists (Js.of_Z z1), (Js.of_Z z2).
    split; [|split; [|split; [|split]]].
    - unfold usagePercent. rewrite Hl. cbn [bind get_hoursPerYear].
      rewrite Hs, Hu1, div_Fin_pos by assumption. reflexivity.
    - unfold usagePercent. rewrite Hent, Hl. cbn [bind get_hoursPerYear].
      rewrite Hs, Hu2, div_Fin_pos by assumption. reflexivity.
    - unfold Js.of_Z, Js.le. apply Qle_bool_iff. now rewrite <- Zle_Qle.
    - unfold usageBarColor, Js.gt, Js.of_Z, Js.lt.
      destruct (Qltb 90 (inject_Z z1)) eqn:E1.
      + intros _. apply Qltb_lt in E1.
        assert (E2 : Qltb 90 (inject_Z z2) = true).
        { apply Qltb_lt. apply Qlt_le_trans with (inject_Z z1); [exact E1|].
          now rewrite <- Zle_Qle. }
        now rewrite E2.
      + destruct (Qltb 70 (inject_Z z1)); discriminate.
    - unfold usageBarColor, Js.gt, Js.of_Z, Js.lt.
      destruct (Qltb 90 (inject_Z z2)) eqn:E90; [discriminate|].
      destruct (Qltb 70 (inject_Z z2)) eqn:E70; [discriminate|].
      intros _. apply Qltb_ge in E90, E70.
      assert (Hq : inject_Z z1 <= inject_Z z2) by now rewrite <- Zle_Qle.
      assert (E1 : Qltb 90 (inject_Z z1) = false) by (apply Qltb_ge; lra).
      assert (E2 : Qltb 70 (inject_Z z1) = false) by (apply Qltb_ge; lra).
      now rewrite E1, E2. }
  destruct Hh as [Hs|Hs]; eapply Hgen; try exact Hs; reflexivity.
Qed.

Lemma usageBarColor_monotone_witness :
  exists p1 p2,
    usagePercent (Child.mk (Fin 1) "Emma Thompson" "2022-03-15" "extended_30"
                    (week 6 6 6 6 6) (Fin 456) false) = Ok p1 /\
    usagePercent (Child.mk (Fin 1) "Emma Thompson" "2022-03-15" "extended_30"
                    (week 6 6 6 6 6) (Fin 1100) false) = Ok p2 /\
    Js.le p1 p2 = true.
Proof.
  destruct (usageBarColor_monotone
              (Child.mk (Fin 1) "Emma Thompson" "2022-03-15" "extended_30"
                 (week 6 6 6 6 6) (Fin 456) false)
              (Child.mk (Fin 1) "Emma Thompson" "2022-03-15" "extended_30"
                 (week 6 6 6 6 6) (Fin 1100) false)
              extended_30 456 1100) as (p1 & p2 & H1 & H2 & Hle & _).
  - right; right; left. reflexivity.
  - reflexivity.
  - reflexivity.
  - reflexivity.
  - discriminate.
  - exists p1, p2. split; [exact H1|]. split; [exact H2 | exact Hle].
Defined.

(** ** Optimisation suggestions, further *)

Section AdvisorSteps.
Variable weeksRemaining : jsnum.
Variable providerSettings : ProviderSettings.t.

Let step := fun suggestions child =>
  optimisations_step weeksRemaining providerSettings child suggestions.

(** One round of the loop only appends, and what it appends does not depend
    on the suggestions so far. *)
Lemma optimisations_step_acc
    (child : Child.t) (suggestions : list Suggestion.t) :
  optimisations_step weeksRemaining providerSettings child suggestions
  = (let* added :=
       optimisations_step weeksRemaining providerSettings child [] in
     Ok (suggestions ++ added)).
Proof.
  unfold optimisations_step.
  destruct (calculateFundedWeeklyHours _ (Child.stretchedOption child) _)
    as [fw|e]; cbn [bind]; [|reflexivity].
  destruct (get_hoursPerYear _) as [hpy|e]; cbn [bind]; [|reflexivity].
  destruct (projectedUsage weeksRemaining child <? hpy * Fin (85 # 100))%js;
    destruct (weeklyBooked child >? fw + Fin 2)%js;
    destruct (negb (Child.stretchedOption child)
              && (weeklyBooked child >? fw)%js);
    try (destruct (calculateFundedWeeklyHours _ true _) as [sw|e];
         cbn [bind]; [|reflexivity];
         destruct (sw >=? weeklyBooked child * Fin (9 # 10))%js);
    cbn [bind app]; rewrite <- ?app_assoc, ?app_nil_r; reflexivity.
Qed.

Lemma optimisations_loop_acc
    (children : list Child.t) (suggestions : list Suggestion.t) :
  forEach step children suggestions
  = (let* added := forEach step children [] in Ok (suggestions ++ added)).
Proof.
  revert suggestions.
  induction children as [|c cs IH]; intro suggestions; cbn [forEach].
  - cbn [bind]. now rewrite app_nil_r.
  - unfold step at 1 3. rewrite optimisations_step_acc.
    destruct (optimisations_step weeksRemaining providerSettings c [])
      as [a|e]; cbn [bind app]; [|reflexivity].
    rewrite (IH (suggestions ++ a)), (IH a).
    destruct (forEach step cs []) as [b|e]; cbn [bind]; [|reflexivity].
    now rewrite app_assoc.
Qed.

Lemma optimisations_loop_app (xs ys : list Child.t) :
  forEach step (xs ++ ys) []
  = (let* first := forEach step xs [] in
     let* second := forEach step ys [] in
     Ok (first ++ second)).
Proof.
  rewrite forEach_app.
  destruct (forEach step xs []) as [a|e]; cbn [bind]; [|reflexivity].
  apply optimisations_loop_acc.
Qed.

(** What one child can contribute: at most three suggestions, each one of
    the three kinds, with the condition that triggered it. *)
Lemma optimisations_step_members
    (child : Child.t) (added : list Suggestion.t) :
  optimisations_step weeksRemaining providerSettings child [] = Ok added ->
  exists fundedWeekly hpy,
    calculateFundedWeeklyHours (Child.entitlement child)
      (Child.stretchedOption child)
      (ProviderSettings.operatingWeeks providerSettings)
    = Ok fundedWeekly /\
    get_hoursPerYear (lookup_scheme (Child.entitlement child)) = Ok hpy /\
    (List.length added <= 3)%nat /\
    forall sg, In sg added ->
      (sg = underUtilisation weeksRemaining child hpy /\
       (projectedUsage weeksRemaining child <? hpy * Fin (85 # 100))%js
       = true)
      \/ (sg = overBooking child fundedWeekly /\
          (weeklyBooked child >? fundedWeekly + Fin 2)%js = true)
      \/ (exists stretchedWeekly,
             sg = stretching providerSettings child stretchedWeekly /\
             calculateFundedWeeklyHours (Child.entitlement child) true
               (ProviderSettings.operatingWeeks providerSettings)
             = Ok stretchedWeekly /\
             Child.stretchedOption child = false /\
             (weeklyBooked child >? fundedWeekly)%js = true /\
             (stretchedWeekly >=? weeklyBooked child * Fin (9 # 10))%js
             = true).
Proof.
  unfold optimisations_step.
  destruct (calculateFundedWeeklyHours _ (Child.stretchedOption child) _)
    as [fw|e]; cbn [bind]; [|discriminate].
  destruct (get_hoursPerYear _) as [hpy|e]; cbn [bind]; [|discriminate].
  intro H. exists fw, hpy. split; [reflexivity|]. split; [reflexivity|].
  revert H.
  destruct (projectedUsage weeksRemaining child <? hpy * Fin (85 # 100))%js
    eqn:Eu;
    destruct (weeklyBooked child >? fw + Fin 2)%js eqn:Eo;
    destruct (negb (Child.stretchedOption child)) eqn:En;
    destruct (weeklyBooked child >? fw)%js eqn:Eg;
    cbn [andb];
    try (destruct (calculateFundedWeeklyHours _ true _) as [sw|e] eqn:Es;
         cbn [bind]; [|discriminate];
         destruct (sw >=? weeklyBooked child * Fin (9 # 10))%js eqn:Ege);
    cbn [app]; intro H; inversion H; subst added; clear H;
    (split; [simpl; lia|]);
    intros sg Hin; simpl in Hin;
    repeat (destruct Hin as [<-|Hin]); try contradiction;
    first [ left; split; reflexivity
          | right; left; split; reflexivity
          | right; right; exists sw;
            apply negb_true_iff in En;
            repeat split; first [ reflexivity | assumption ] ].
Qed.

(** Every suggestion of the loop comes from one round, for one child. *)
Lemma optimisations_loop_members
    (children : list Child.t) (out : list Suggestion.t) :
  forEach step children [] = Ok out ->
  (List.length out <= 3 * List.length children)%nat /\
  forall sg, In sg out ->
    exists child added,
      In child children /\
      optimisations_step weeksRemaining providerSettings child [] = Ok added /\
      In sg added.
Proof.
  revert out. induction children as [|c cs IH]; intro out.
  - simpl. intro H. inversion H. split; [simpl; lia | intros sg []].
  - change (c :: cs) with ([c] ++ cs). rewrite optimisations_loop_app.
    cbn [forEach]. unfold step at 1.
    destruct (optimisations_step weeksRemaining providerSettings c [])
      as [a|e] eqn:Ea; cbn [bind]; [|discriminate].
    destruct (forEach step cs []) as [b|e]; cbn [bind]; [|discriminate].
    intro H. inversion H; subst out; clear H.
    destruct (IH b eq_refl) as [Hlen Hmem].
    destruct (optimisations_step_members c a Ea) as (_ & _ & _ & _ & Hla & _).
    split.
    + rewrite length_app. simpl List.length. lia.
    + intros sg Hin. apply in_app_or in Hin. destruct Hin as [Hin|Hin].
      * exists c, a. split; [now left|]. split; assumption.
      * destruct (Hmem sg Hin) as (child & added & Hc & Hs & Hsg).
        exists child, added. split; [now right|]. split; assumption.
Qed.
End AdvisorSteps.

(** X26: the suggestions for a roster are the suggestions for its first
    part followed by those for the rest: children are advised one by one,
    in roster order, and an error for either part is an error for the
    whole. *)
Theorem optimisations_app
    (today : Z) (first rest : list Child.t)
    (providerSettings : ProviderSettings.t) :
  optimisations today (first ++ rest) providerSettings
  = (let* a := optimisations today first providerSettings in
     let* b := optimisations today rest providerSettings in
     Ok (a ++ b)).
Proof. unfold optimisations. apply optimisations_loop_app. Qed.

(** X27: a roster gets at most three suggestions per child, and every
    suggestion names a child of the roster and is a warning, an information
    or a success. *)
Theorem optimisations_bounded
    (today : Z) (children : list Child.t)
    (providerSettings : ProviderSettings.t) (out : list Suggestion.t) :
  optimisations today children providerSettings = Ok out ->
  (List.length out <= 3 * List.length children)%nat /\
  forall sg, In sg out ->
    (exists child, In child children /\
                   Suggestion.child sg = Child.name child) /\
    (Suggestion.type sg = "warning"%string
     \/ Suggestion.type sg = "info"%string
     \/ Suggestion.type sg = "success"%string).
Proof.
  unfold optimisations. intro H.
  destruct (optimisations_loop_members _ _ _ _ H) as [Hlen Hmem].
  split; [exact Hlen|].
  intros sg Hin.
  destruct (Hmem sg Hin) as (child & added & Hc & Hs & Hsg).
  destruct (optimisations_step_members _ _ _ _ Hs)
    as (fw & hpy & _ & _ & _ & Hkinds).
  destruct (Hkinds sg Hsg) as [[-> _]|[[-> _]|(sw & -> & _)]];
    (split; [exists child; split; [exact Hc | reflexivity] | simpl; auto]).
Qed.

Lemma optimisations_bounded_witness :
  exists out,
    optimisations ten_weeks_left SAMPLE_CHILDREN default_settings = Ok out /\
    (List.length out <= 3 * 3)%nat.
Proof.
  destruct (optimisations ten_weeks_left SAMPLE_CHILDREN default_settings)
    as [out|e] eqn:Hout; [|vm_compute in Hout; discriminate Hout].
  exists out. split; [reflexivity|].
  apply (optimisations_bounded ten_weeks_left SAMPLE_CHILDREN
           default_settings out Hout).
Defined.

Lemma sum_finite (l : list jsnum) (a : Q) :
  Forall finite l ->
  exists t, fold_left (fun sum hours => sum + hours)%js l (Fin a) = Fin t.
Proof.
  intro Hall. revert a.
  induction Hall as [|x l Hx _ IH]; intro a; simpl.
  - now exists a.
  - destruct x as [q| | |]; simpl in Hx; try contradiction. apply IH.
Qed.

Lemma getWeeklyHours_finite (pattern : list (string * jsnum)) :
  Forall (fun day => finite (snd day)) pattern ->
  exists booked, getWeeklyHours pattern = Fin booked.
Proof.
  intro Hall. unfold getWeeklyHours. apply sum_finite.
  apply Forall_map. exact Hall.
Qed.

Lemma own_property_In {A} (k : string) (o : list (string * A)) (v : A) :
  own_property k o = Some v -> In (k, v) o.
Proof.
  induction o as [|[k' v'] o IH]; simpl; [discriminate|].
  destruct (String.eqb_spec k k') as [->|Hne].
  - intro H. inversion H. now left.
  - intro H. right. now apply IH.
Qed.

Lemma lookup_scheme_Own (key : string) (s : FundingScheme.t) :
  lookup_scheme key = Own s -> In (key, s) FUNDING_SCHEMES.
Proof.
  unfold lookup_scheme.
  destruct (own_property key FUNDING_SCHEMES) as [s'|] eqn:E.
  - intro H. inversion H; subst. now apply own_property_In.
  - destruct (existsb _ _); discriminate.
Qed.

(** The funded weekly hours of a catalogued scheme at a positive whole
    number of operating weeks, both ways. *)
Lemma funded_hours_values (key : string) (s : FundingScheme.t) (W : Z) :
  In (key, s) FUNDING_SCHEMES -> (0 < W)%Z ->
  exists h,
    FundingScheme.hoursPerYear s = Fin h /\ 0 < h /\
    calculateFundedWeeklyHours key true (Js.of_Z W)
    = Ok (Fin (inject_Z (Qfloor (h / inject_Z W * 100 + (1 # 2))) / 100)) /\
    calculateFundedWeeklyHours key false (Js.of_Z W)
    = Ok (Fin (inject_Z (Qfloor (h / 38 * 100 + (1 # 2))) / 100)).
Proof.
  intros Hin HW.
  destruct (catalogued_cases key s Hin) as (Hl & Hh & Hw).
  pose proof (inject_Z_pos W HW) as Hpos.
  assert (Hgen : forall h, 0 < h -> FundingScheme.hoursPerYear s = Fin h ->
    exists h,
      FundingScheme.hoursPerYear s = Fin h /\ 0 < h /\
      calculateFundedWeeklyHours key true (Js.of_Z W)
      = Ok (Fin (inject_Z (Qfloor (h / inject_Z W * 100 + (1 # 2))) / 100)) /\
      calculateFundedWeeklyHours key false (Js.of_Z W)
      = Ok (Fin (inject_Z (Qfloor (h / 38 * 100 + (1 # 2))) / 100))).
  { intros h Hh0 Hs. exists h. split; [exact Hs|]. split; [exact Hh0|].
    unfold calculateFundedWeeklyHours, Js.of_Z. rewrite Hl. simpl bind.
    rewrite Hs, Hw. rewrite !div_Fin_pos by (assumption || reflexivity).
    rewrite !round_to_cents_Fin. split; reflexivity. }
  destruct Hh as [Hs|Hs]; eapply Hgen; try exact Hs; reflexivity.
Qed.

Lemma figures_under_finite (k u b h : Q) (child : Child.t) :
  0 < k ->
  Child.hoursUsed child = Fin u ->
  getWeeklyHours (Child.weeklyPattern child) = Fin b ->
  Forall finite (figures (underUtilisation (Fin k) child (Fin h))).
Proof.
  intros Hk Hu Hb.
  unfold figures, underUtilisation, projectedUsage, weeklyBooked.
  cbn [Suggestion.message Suggestion.recommendation].
  rewrite Hu, Hb.
  change (Fin u + Fin b * Fin k)%js with (Fin (u + b * k)).
  change (Fin h - Fin (u + b * k))%js with (Fin (h - (u + b * k))).
  rewrite div_Fin_pos by assumption.
  simpl. repeat constructor.
Qed.

(** X28: while term weeks remain, for 1 to 52 operating weeks and a roster
    of catalogued entitlements with between 0 and 24 hours booked on each
    day and between 0 and 8784 hours used (the hours of a day and of a
    year, far from any overflow), the suggestions are computed and every
    figure put into their texts is finite: neither [Infinity] nor [NaN]. *)
Theorem optimisations_finite_figures
    (today : Z) (children : list Child.t)
    (providerSettings : ProviderSettings.t) (W : Z) :
  (getCurrentTermWeek today < 38)%Z ->
  ProviderSettings.operatingWeeks providerSettings = Js.of_Z W ->
  (1 <= W <= 52)%Z ->
  Forall (fun c => is_catalogued (Child.entitlement c)
                   /\ (exists used, Child.hoursUsed c = Fin used
                                    /\ 0 <= used <= 8784)
                   /\ Forall (fun day => exists hours,
                                 snd day = Fin hours /\ 0 <= hours <= 24)
                        (Child.weeklyPattern c))
         children ->
  exists out,
    optimisations today children providerSettings = Ok out /\
    forall sg, In sg out -> Forall finite (figures sg).
Proof.
  intros Hweek HW Hrange Hbounded.
  assert (Hpos : (0 < W)%Z) by lia.
  assert (Hall :
    Forall (fun c => is_catalogued (Child.entitlement c)
                     /\ finite (Child.hoursUsed c)
                     /\ Forall (fun day => finite (snd day))
                          (Child.weeklyPattern c))
           children).
  { eapply Forall_impl; [|exact Hbounded].
    intros c (Hcat & (used & Hu & _) & Hdays).
    split; [exact Hcat|]. split; [now rewrite Hu|].
    eapply Forall_impl; [|exact Hdays].
    intros day (hours & Hh & _). now rewrite Hh. }
  unfold optimisations.
  set (k := (38 - getCurrentTermWeek today)%Z).
  assert (Hk : 0 < inject_Z k) by (apply inject_Z_pos; subst k; lia).
  destruct (optimisations_loop (Js.of_Z k) providerSettings children) with
    (suggestions := @nil Suggestion.t) as (out & Hrun & _).
  { eapply Forall_impl; [|exact Hall]. intros c H. apply H. }
  exists out. split; [exact Hrun|].
  intros sg Hin.
  destruct (optimisations_loop_members _ _ _ _ Hrun) as [_ Hmem].
  destruct (Hmem sg Hin) as (child & added & Hc & Hs & Hsg).
  rewrite Forall_forall in Hall.
  destruct (Hall child Hc) as (Hcat & Hused & Hpat).
  destruct (is_catalogued_In _ Hcat) as [scheme Hsch].
  destruct (catalogued_cases _ scheme Hsch) as (Hl & _ & _).
  destruct (funded_hours_values _ scheme W Hsch Hpos)
    as (h & Hh & _ & Hst & Htt).
  destruct (getWeeklyHours_finite _ Hpat) as [b Hb].
  destruct (Child.hoursUsed child) as [u| | |] eqn:Hu; try contradiction.
  destruct (optimisations_step_members _ _ _ _ Hs)
    as (fw & hpy & Hfw & Hhpy & _ & Hkinds).
  rewrite Hl in Hhpy. simpl in Hhpy. rewrite Hh in Hhpy.
  inversion Hhpy; subst hpy; clear Hhpy.
  rewrite HW in Hfw.
  assert (Hfin : exists r, fw = Fin r).
  { destruct (Child.stretchedOption child);
      [rewrite Hst in Hfw | rewrite Htt in Hfw];
      inversion Hfw; eexists; reflexivity. }
  destruct Hfin as [r ->].
  destruct (Hkinds sg Hsg) as [[-> _]|[[-> _]|(sw & -> & Hsw & _)]].
  - now apply (figures_under_finite _ u b).
  - unfold figures, overBooking, weeklyBooked.
    cbn [Suggestion.message Suggestion.recommendation]. rewrite Hb.
    simpl. repeat constructor.
  - rewrite HW, Hst in Hsw. inversion Hsw; subst sw.
    unfold figures, stretching.
    cbn [Suggestion.message Suggestion.recommendation]. rewrite HW.
    simpl. repeat constructor.
Qed.

Lemma optimisations_finite_figures_witness :
  exists out,
    optimisations ten_weeks_left SAMPLE_CHILDREN default_settings = Ok out /\
    forall sg, In sg out -> Forall finite (figures sg).
Proof.
  apply (optimisations_finite_figures ten_weeks_left SAMPLE_CHILDREN
           default_settings 51).
  - reflexivity.
  - reflexivity.
  - lia.
  - repeat apply Forall_cons; try apply Forall_nil;
      (split; [unfold is_catalogued; simpl; auto 6|]);
      (split; [eexists; split; [reflexivity | split; discriminate]|]);
      repeat apply Forall_cons; try apply Forall_nil;
      (eexists; split; [reflexivity | split; discriminate]).
Defined.

Lemma funded_hours_not_NaN (key : string) (stretched : bool) (W fw : jsnum) :
  calculateFundedWeeklyHours key stretched W = Ok fw ->
  fw <> NaN ->
  exists s, In (key, s) FUNDING_SCHEMES.
Proof.
  unfold calculateFundedWeeklyHours.
  destruct (lookup_scheme key) as [s| |] eqn:El.
  - intros _ _. exists s. now apply lookup_scheme_Own.
  - destruct stretched; simpl; intros H Hn; inversion H; subst;
      now contradiction Hn.
  - destruct stretched; discriminate.
Qed.

(** X29: a stretching suggestion is only made for a child that is not
    stretched and is booked for more than the term-time funded hours; the
    stretched figure it quotes covers nine tenths of the booked hours, and
    with 38 or more operating weeks it is never above the term-time funded
    hours. *)
Theorem stretching_suggestion
    (today : Z) (children : list Child.t)
    (providerSettings : ProviderSettings.t)
    (out : list Suggestion.t) (sg : Suggestion.t) :
  optimisations today children providerSettings = Ok out ->
  In sg out ->
  Suggestion.type sg = "success"%string ->
  exists child termTime stretchedWeekly,
    In child children /\
    Suggestion.child sg = Child.name child /\
    Child.stretchedOption child = false /\
    calculateFundedWeeklyHours (Child.entitlement child) false
      (ProviderSettings.operatingWeeks providerSettings)
    = Ok termTime /\
    calculateFundedWeeklyHours (Child.entitlement child) true
      (ProviderSettings.operatingWeeks providerSettings)
    = Ok stretchedWeekly /\
    figures sg
    = [stretchedWeekly; ProviderSettings.operatingWeeks providerSettings] /\
    (termTime <? weeklyBooked child)%js = true /\
    Js.le (weeklyBooked child * Fin (9 # 10))%js stretchedWeekly = true /\
    (forall W, ProviderSettings.operatingWeeks providerSettings = Js.of_Z W ->
               (38 <= W)%Z ->
               Js.le stretchedWeekly termTime = true).
Proof.
  unfold optimisations. intros Hrun Hin Htype.
  destruct (optimisations_loop_members _ _ _ _ Hrun) as [_ Hmem].
  destruct (Hmem sg Hin) as (child & added & Hc & Hs & Hsg).
  destruct (optimisations_step_members _ _ _ _ Hs)
    as (fw & hpy & Hfw & _ & _ & Hkinds).
  destruct (Hkinds sg Hsg)
    as [[-> _]|[[-> _]|(sw & -> & Hsw & Hns & Hgt & Hge)]];
    try discriminate Htype.
  rewrite Hns in Hfw.
  exists child, fw, sw.
  repeat split; try assumption.
  intros W HW H38.
  assert (Hnn : fw <> NaN).
  { intros ->. unfold Js.gt in Hgt.
    destruct (weeklyBooked child); discriminate Hgt. }
  destruct (funded_hours_not_NaN _ _ _ _ Hfw Hnn) as [scheme Hsch].
  destruct (funded_hours_values _ scheme W Hsch ltac:(lia))
    as (h & _ & Hh0 & Hst & Htt).
  rewrite HW, Hst in Hsw. rewrite HW, Htt in Hfw.
  set (a := inject_Z (Qfloor (h / inject_Z W * 100 + (1 # 2))) / 100) in *.
  set (b := inject_Z (Qfloor (h / 38 * 100 + (1 # 2))) / 100) in *.
  assert (Ea : sw = Fin a) by congruence.
  assert (Eb : fw = Fin b) by congruence.
  rewrite Ea, Eb. unfold Js.le. apply Qle_bool_iff.
  subst a b. apply round_to_cents_mono.
  apply Qdiv_antitone; [lra | reflexivity|].
  change 38 with (inject_Z 38). rewrite <- Zle_Qle. exact H38.
Qed.

Lemma stretching_suggestion_witness :
  exists out sg child termTime stretchedWeekly,
    optimisations ten_weeks_left stretch_roster settings_39_weeks = Ok out /\
    nth_error out 0 = Some sg /\
    In child stretch_roster /\
    Child.stretchedOption child = false /\
    figures sg = [stretchedWeekly; Fin 39] /\
    (termTime <? weeklyBooked child)%js = true /\
    Js.le stretchedWeekly termTime = true.
Proof.
  destruct (optimisations ten_weeks_left stretch_roster settings_39_weeks)
    as [out|e] eqn:Hout; [|vm_compute in Hout; discriminate Hout].
  destruct (nth_error out 0) as [sg|] eqn:Hsg;
    [|vm_compute in Hout; inversion Hout; subst out; discriminate Hsg].
  destruct (stretching_suggestion ten_weeks_left stretch_roster
              settings_39_weeks out sg Hout)
    as (child & tt & sw & Hc & _ & Hns & _ & _ & Hfig & Hlt & _ & Hle).
  - eapply nth_error_In. exact Hsg.
  - vm_compute in Hout. inversion Hout; subst out.
    simpl in Hsg. inversion Hsg. reflexivity.
  - exists out, sg, child, tt, sw.
    repeat split; try assumption.
    apply (Hle 39%Z); [reflexivity | lia].
Defined.





(** ** Binary64 *)

Lemma operating_weeks_cases (W : Z) :
  (38 <= W <= 52)%Z ->
  In W [38; 39; 40; 41; 42; 43; 44; 45; 46; 47; 48; 49; 50; 51; 52]%Z.
Proof. intro H. simpl. lia. Qed.

(** X31: for every scheme of the registry, stretched or not, and every
    whole number of operating weeks from 38 to 52, the funded weekly hours
    computed in binary64 are the double nearest to the funded weekly hours
    computed exactly: on the weeks a provider can set, rounding errors never
    reach the result. *)
Theorem funded_hours_binary64_agree
    (key : string) (s : FundingScheme.t) (stretched : bool) (W : Z) :
  In (key, s) FUNDING_SCHEMES ->
  (38 <= W <= 52)%Z ->
  exists r : Q,
    calculateFundedWeeklyHours key stretched (Js.of_Z W) = Ok (Fin r) /\
    Binary64.calculateFundedWeeklyHours key stretched (Binary64.of_Z W)
    = Ok (Binary64.of_jsnum (Fin r)).
Proof.
  intros Hin HW.
  apply operating_weeks_cases in HW.
  unfold FUNDING_SCHEMES in Hin. simpl in Hin.
  destruct Hin as [H|[H|[H|[H|[]]]]]; inversion H; subst key s; clear H;
    destruct stretched;
    repeat (destruct HW as [<-|HW];
            [eexists; split; [reflexivity | vm_compute; reflexivity]|]);
    destruct HW.
Qed.

Lemma funded_hours_binary64_agree_witness :
  exists r : Q,
    calculateFundedWeeklyHours "extended_30" true (Js.of_Z 51) = Ok (Fin r) /\
    Binary64.calculateFundedWeeklyHours "extended_30" true (Binary64.of_Z 51)
    = Ok (Binary64.of_jsnum (Fin r)).
Proof.
  apply (funded_hours_binary64_agree "extended_30" extended_30 true 51).
  - right; right; left. reflexivity.
  - lia.
Defined.

(** Outside those weeks the two can part: at 2000 operating weeks 570 hours
    give 0.285, which binary64 scales to 28.499999999999996 and rounds down
    to 0.28, where exact arithmetic rounds the half up to 0.29. *)
Example funded_hours_binary64_2000_weeks :
  Binary64.calculateFundedWeeklyHours "universal_15" true (Binary64.of_Z 2000)
  = Ok (Binary64.of_fraction 28 100)
  /\ exists r, calculateFundedWeeklyHours "universal_15" true (Js.of_Z 2000)
               = Ok (Fin r) /\ r == 29 # 100.
Proof.
  split; [vm_compute; reflexivity|].
  eexists. split; reflexivity.
Qed.
